(** * SMA crossover strategy: a shallow embedding of [main.py] and [app.py]

    The two entry points share three functions, [fetch_data],
    [add_moving_averages] and [generate_signals]; [main.py] adds
    [execute_trades] and [run_strategy], [app.py] a Streamlit script.

    Modelling choices
    - in the store, a float64 cell is either a finite number, kept as an
      exact canonical rational ([Qc]), or [NaN]: the signals, positions
      and trades only compare cells and subtract the flags 0.0 and 1.0,
      so nothing rounds there;
    - the values of the two moving averages do round, and can overflow:
      for the statements about these values the rolling mean is given a
      second time on IEEE binary64, in the module [binary64];
    - a pandas [DataFrame] is a row index and a finite map from column
      names to columns; frames are Python objects, so they live in a
      store and the functions receive and return references;
    - console output, Streamlit calls and the call of [yf.download] are
      events of a trace; what the download returns is a parameter. *)

From Stdlib Require Import QArith Qcanon.
From Stdlib Require Import Floats.
From stdpp Require Import gmap strings list fin_maps.

Open Scope Z_scope.

(** ** Floats *)

Inductive float64 : Type :=
  | Fin (q : Qc)
  | NaN.

#[global] Instance float64_eq_dec : EqDecision float64.
Proof. solve_decision. Defined.

(** [x - y]; NaN is absorbing. *)
Definition fsub (x y : float64) : float64 :=
  match x, y with
  | Fin a, Fin b => Fin (a - b)%Qc
  | _, _ => NaN
  end.

(** [x > y]; any comparison with NaN is false. *)
Definition fgt (x y : float64) : bool :=
  match x, y with
  | Fin a, Fin b => bool_decide (b < a)%Qc
  | _, _ => false
  end.

(** [x == y]; NaN is not equal to anything, itself included. *)
Definition feq (x y : float64) : bool :=
  match x, y with
  | Fin a, Fin b => bool_decide (a = b)
  | _, _ => false
  end.

Definition fne (x y : float64) : bool := negb (feq x y).

Definition f0 : float64 := Fin 0%Qc.
Definition f1 : float64 := Fin 1%Qc.
Definition fm1 : float64 := Fin (- 1)%Qc.

Definition QcZ (z : Z) : Qc := Q2Qc (inject_Z z).

(** ** Rolling mean

    [Series.rolling(window=w, min_periods=m).mean()] as pandas computes
    it: a single pass that keeps the number of observations and their
    sum for the current window, adds the entering values and removes
    the leaving ones, and skips NaN on both sides. *)

Record mean_state : Type := MeanState { nobs : Z; sum_x : Qc }.

Definition mean_state0 : mean_state := MeanState 0 0%Qc.

Definition add_mean (a : mean_state) (v : float64) : mean_state :=
  match v with
  | Fin q => MeanState (nobs a + 1) (sum_x a + q)%Qc
  | NaN => a
  end.

Definition remove_mean (a : mean_state) (v : float64) : mean_state :=
  match v with
  | Fin q => MeanState (nobs a - 1) (sum_x a - q)%Qc
  | NaN => a
  end.

Definition calc_mean (minp : Z) (a : mean_state) : float64 :=
  if (minp <=? nobs a) && (0 <? nobs a)
  then Fin (sum_x a / QcZ (nobs a))%Qc
  else NaN.

(** [values[s:e]] *)
Definition slice {A} (l : list A) (s e : nat) : list A :=
  take (e - s) (drop s l).

(** Bounds of the fixed window that closes at row [i]: rows
    [max(0, i+1-w) .. i]. Subtraction on [nat] stops at 0. *)
Definition win_start (w i : nat) : nat := (i + 1 - w)%nat.
Definition win_end (i : nat) : nat := (i + 1)%nat.

Fixpoint roll_mean_loop (values : list float64) (w : nat) (minp : Z)
    (rows : list nat) (a : mean_state) : list float64 :=
  match rows with
  | [] => []
  | i :: rows' =>
      let s := win_start w i in
      let e := win_end i in
      let a' :=
        if (i =? 0)%nat || (win_end (i - 1) <=? s)%nat
        then foldl add_mean mean_state0 (slice values s e)
        else foldl add_mean
               (foldl remove_mean a (slice values (win_start w (i - 1)) s))
               (slice values (win_end (i - 1)) e) in
      calc_mean minp a' :: roll_mean_loop values w minp rows' a'
  end.

Inductive exn : Type :=
  | KeyError (key : string)
  | ValueError (msg : string)
  | OtherError (msg : string).

(** The two checks done when the rolling object is built, in their
    order, then the pass. *)
Definition rolling_mean (values : list float64) (window min_periods : Z)
    : exn + list float64 :=
  if window <? min_periods
  then inl (ValueError "min_periods must be <= window")
  else if window <? 0
  then inl (ValueError "window must be an integer 0 or greater")
  else inr (roll_mean_loop values (Z.to_nat window) min_periods
              (seq 0 (length values)) mean_state0).

(** ** Data frames, the store and the trace *)

Definition date : Type := Z.

Record DataFrame : Type := Frame {
  index : list date;
  columns : gmap string (list float64)
}.

(** Every column is as long as the index, as pandas maintains it. *)
Definition wf_frame (df : DataFrame) : Prop :=
  map_Forall (λ (_ : string) (c : list float64), length c = length (index df))
    (columns df).

#[global] Instance wf_frame_dec (df : DataFrame) : Decision (wf_frame df).
Proof. unfold wf_frame. apply _. Defined.

(** [df.empty]: some axis has length 0. *)
Definition empty (df : DataFrame) : bool :=
  bool_decide (index df = []) || bool_decide (columns df = ∅).

Definition assign (k : string) (c : list float64) (df : DataFrame) : DataFrame :=
  Frame (index df) (<[k := c]> (columns df)).

(** [df[mask]] and [df.head(n)] *)
Fixpoint select {A} (mask : list bool) (l : list A) : list A :=
  match mask, l with
  | b :: mask', x :: l' => if b then x :: select mask' l' else select mask' l'
  | _, _ => []
  end.

Definition filter_rows (mask : list bool) (df : DataFrame) : DataFrame :=
  Frame (select mask (index df)) (select mask <$> columns df).

Definition head (n : nat) (df : DataFrame) : DataFrame :=
  Frame (take n (index df)) (take n <$> columns df).

(** One row of [df.iterrows()]: the label and the row as a map. *)
Definition row_at (df : DataFrame) (i : nat) : gmap string float64 :=
  omap (λ c : list float64, c !! i) (columns df).

Definition iterrows (df : DataFrame) : list (date * gmap string float64) :=
  imap (λ i d, (d, row_at df i)) (index df).

Inductive action : Type := BUY | SELL.

#[global] Instance action_eq_dec : EqDecision action.
Proof. solve_decision. Defined.

(** The rows of the trade log table of [app.py]. *)
Record TradeLog : Type := MkTradeLog {
  log_index : list date;
  price_at_signal : list float64;
  log_action : list action
}.

Inductive trace_name : Type :=
  | ClosePrice | SMA (window : Z) | BuySignal | SellSignal.

Record Scatter : Type := MkScatter {
  sc_x : list date;
  sc_y : list float64;
  sc_name : trace_name
}.

(** The texts shown to the user, one constructor per template. *)
Inductive text : Type :=
  | Fetching (ticker start end_ : string)
  | NoDataFound (ticker : string)
  | Fetched
  | FetchFailed (e : string)
  | Calculating (short long : Z)
  | Calculated
  | Generating
  | Generated
  | Executing
  | BuyAt (d : date) (price : float64)
  | SellAt (d : date) (price : float64)
  | Complete
  | SampleSignals
  | SampleTrades
  | Table (df : DataFrame)
  | LongMustExceedShort.

Inductive event : Type :=
  | YfDownload (ticker start end_ : string)
  | Print (t : text)
  | StError (t : text)
  | StSidebarError (t : text)
  | StSubheader (ticker : option string)
  | StPlotlyChart (fig : list Scatter)
  | StDataframe (log : TradeLog).

Definition loc : Type := positive.

Record world : Type := World {
  heap : gmap loc DataFrame;
  out : list event
}.

(** ** State and exception monad *)

Definition M (A : Type) : Type := world → (exn + A) * world.

Definition ret {A} (x : A) : M A := λ w, (inr x, w).

Definition bind {A B} (m : M A) (f : A → M B) : M B :=
  λ w, match m w with
       | (inl e, w') => (inl e, w')
       | (inr x, w') => f x w'
       end.

Definition raise {A} (e : exn) : M A := λ w, (inl e, w).

Definition lift {A} (r : exn + A) : M A :=
  match r with inl e => raise e | inr x => ret x end.

#[global] Instance M_ret : MRet M := @ret.
#[global] Instance M_bind : MBind M := λ A B f m, bind m f.

Definition emit (e : event) : M unit :=
  λ w, (inr tt, World (heap w) (out w ++ [e])).

Definition print (t : text) : M unit := emit (Print t).

(** A new object gets an address no live object has. *)
Definition alloc (df : DataFrame) : M loc :=
  λ w, let l := fresh (dom (heap w)) in
       (inr l, World (<[l := df]> (heap w)) (out w)).

Definition load (l : loc) : M DataFrame :=
  λ w, match heap w !! l with
       | Some df => (inr df, w)
       | None => (inl (OtherError "dangling reference"), w)
       end.

(** [df[k]] *)
Definition getcol (l : loc) (k : string) : M (list float64) :=
  df ← load l ;
  match columns df !! k with
  | Some c => ret c
  | None => raise (KeyError k)
  end.

(** [df[k] = c], in place. *)
Definition setcol (l : loc) (k : string) (c : list float64) : M unit :=
  λ w, match heap w !! l with
       | Some df => (inr tt, World (<[l := assign k c df]> (heap w)) (out w))
       | None => (inl (OtherError "dangling reference"), w)
       end.

Fixpoint for_each {A} (l : list A) (body : A → M unit) : M unit :=
  match l with
  | [] => ret tt
  | x :: l' => body x ;; for_each l' body
  end.

(** ** Column operations of numpy and pandas used by the program *)

(** [np.where(cond, x, y)] with scalar [x] and [y]. *)
Definition np_where (cond : list bool) (x y : float64) : list float64 :=
  (λ b : bool, if b then x else y) <$> cond.

(** [Series.diff()]: no predecessor for the first row. *)
Definition diff (c : list float64) : list float64 :=
  match c with
  | [] => []
  | _ :: c' => NaN :: zip_with fsub c' c
  end.

(** [Series.isin(values)] on one cell. *)
Definition isin (values : list float64) (v : float64) : bool :=
  existsb (feq v) values.

(** [row[k]] *)
Definition row_get (row : gmap string float64) (k : string) : M float64 :=
  match row !! k with
  | Some v => ret v
  | None => raise (KeyError k)
  end.

(** What the download hands back: an exception or a frame. *)
Inductive download_result : Type :=
  | Raises (e : string)
  | Returns (df : DataFrame).

(** ** Statements that are the same in both files *)

(** The two assignments of [add_moving_averages]. *)
Definition assign_moving_averages (data : loc) (short_window long_window : Z)
    : M unit :=
  close ← getcol data "Close";
  short ← lift (rolling_mean close short_window 1);
  setcol data "SMA_Short" short;;
  close ← getcol data "Close";
  long ← lift (rolling_mean close long_window 1);
  setcol data "SMA_Long" long.

(** The body of [generate_signals] between its two prints. *)
Definition build_signals (data : loc) : M loc :=
  df ← load data;
  signals ← alloc (Frame (index df) ∅);
  c ← getcol data "Close";
  setcol signals "price" c;;
  c ← getcol data "SMA_Short";
  setcol signals "SMA_Short" c;;
  c ← getcol data "SMA_Long";
  setcol signals "SMA_Long" c;;
  sdf ← load signals;
  setcol signals "signal" (replicate (length (index sdf)) f0);;
  s ← getcol signals "SMA_Short";
  l ← getcol signals "SMA_Long";
  setcol signals "signal" (np_where (zip_with fgt s l) f1 f0);;
  sig ← getcol signals "signal";
  setcol signals "positions" (diff sig);;
  mret signals.

(** ** main.py *)

Module main_py.

Definition TICKER : string := "AAPL".
Definition START_DATE : string := "2022-01-01".
Definition END_DATE : string := "2023-01-01".
Definition SHORT_WINDOW : Z := 40.
Definition LONG_WINDOW : Z := 100.

Section Provider.
Variable yf_download : string → string → string → download_result.

Definition fetch_data (ticker start end_ : string) : M (option loc) :=
  print (Fetching ticker start end_);;
  emit (YfDownload ticker start end_);;
  match yf_download ticker start end_ with
  | Raises e => print (FetchFailed e);; mret None
  | Returns df =>
      if empty df
      then print (NoDataFound ticker);; mret None
      else print Fetched;; data ← alloc df; mret (Some data)
  end.

Definition add_moving_averages (data : loc) (short_window long_window : Z)
    : M loc :=
  print (Calculating short_window long_window);;
  assign_moving_averages data short_window long_window;;
  print Calculated;;
  mret data.

Definition generate_signals (data : loc) : M loc :=
  print Generating;;
  signals ← build_signals data;
  print Generated;;
  mret signals.

Definition execute_trades (signals : loc) : M unit :=
  print Executing;;
  df ← load signals;
  for_each (iterrows df) (λ '(index, row),
    p ← row_get row "positions";
    if feq p f1
    then price ← row_get row "price"; print (BuyAt index price)
    else
      p ← row_get row "positions";
      if feq p fm1
      then price ← row_get row "price"; print (SellAt index price)
      else mret tt);;
  print Complete.

Definition run_strategy : M unit :=
  price_data ← fetch_data TICKER START_DATE END_DATE;
  match price_data with
  | None => mret tt
  | Some price_data =>
      price_data_with_ma ←
        add_moving_averages price_data SHORT_WINDOW LONG_WINDOW;
      trading_signals ← generate_signals price_data_with_ma;
      execute_trades trading_signals;;
      print SampleSignals;;
      df ← load trading_signals;
      print (Table (head 10 df));;
      print SampleTrades;;
      positions ← getcol trading_signals "positions";
      df ← load trading_signals;
      print (Table (head 5 (filter_rows ((λ p, fne p f0) <$> positions) df)))
  end.

End Provider.
End main_py.

(** ** app.py *)

Module app_py.

Section Provider.
Variable yf_download : string → string → string → download_result.

Definition fetch_data (ticker start end_ : string) : M (option loc) :=
  emit (YfDownload ticker start end_);;
  match yf_download ticker start end_ with
  | Raises e => emit (StError (FetchFailed e));; mret None
  | Returns df =>
      if empty df
      then emit (StError (NoDataFound ticker));; mret None
      else data ← alloc df; mret (Some data)
  end.

Definition add_moving_averages (data : loc) (short_window long_window : Z)
    : M loc :=
  assign_moving_averages data short_window long_window;;
  mret data.

Definition generate_signals (data : loc) : M loc :=
  build_signals data.

(** The trade log table: the rows whose position is 1.0 or -1.0, their
    price, and the action read off the position. *)
Definition trade_log (signals : DataFrame) (positions price : list float64)
    : TradeLog :=
  let mask := isin [f1; fm1] <$> positions in
  MkTradeLog (select mask (index signals))
             (select mask price)
             ((λ x, if feq x f1 then BUY else SELL) <$> select mask positions).

(** The script below the function definitions; the five widget values
    are its inputs. *)
Definition script (ticker start_date end_date : string)
    (short_window long_window : Z) : M unit :=
  if long_window <=? short_window
  then emit (StSidebarError LongMustExceedShort)
  else
    data ← fetch_data ticker start_date end_date;
    match data with
    | None => mret tt
    | Some data =>
        data_with_ma ← add_moving_averages data short_window long_window;
        signals ← generate_signals data_with_ma;
        emit (StSubheader (Some ticker));;
        ddf ← load data;
        close ← getcol data "Close";
        sdf ← load signals;
        sma_short ← getcol signals "SMA_Short";
        sma_long ← getcol signals "SMA_Long";
        positions ← getcol signals "positions";
        price ← getcol signals "price";
        let buy := (λ p, feq p f1) <$> positions in
        positions ← getcol signals "positions";
        let sell := (λ p, feq p fm1) <$> positions in
        emit (StPlotlyChart
          [ MkScatter (index ddf) close ClosePrice;
            MkScatter (index sdf) sma_short (SMA short_window);
            MkScatter (index sdf) sma_long (SMA long_window);
            MkScatter (select buy (index sdf)) (select buy price) BuySignal;
            MkScatter (select sell (index sdf)) (select sell price) SellSignal ]);;
        emit (StSubheader None);;
        positions ← getcol signals "positions";
        price ← getcol signals "price";
        emit (StDataframe (trade_log sdf positions price))
    end.

End Provider.
End app_py.

(** ** The moving average as the specification words it *)

Definition total (l : list Qc) : Qc := foldr Qcplus 0%Qc l.

Definition mean (l : list Qc) : Qc := (total l / QcZ (Z.of_nat (length l)))%Qc.

(** mean of [close[max(0, i-w+1) .. i]] *)
Definition sma_spec (close : list Qc) (w : Z) (i : nat) : Qc :=
  mean (slice close (Z.to_nat (Z.max 0 (Z.of_nat i - w + 1))) (i + 1)).


(** Observations and their sum in a window, NaN skipped. *)
Fixpoint count_obs (l : list float64) : Z :=
  match l with
  | [] => 0
  | Fin _ :: l' => 1 + count_obs l'
  | NaN :: l' => count_obs l'
  end.

Fixpoint sum_obs (l : list float64) : Qc :=
  match l with
  | [] => 0%Qc
  | Fin q :: l' => (q + sum_obs l')%Qc
  | NaN :: l' => sum_obs l'
  end.

(** The state after adding one whole window from scratch. *)
Definition window_state (values : list float64) (w i : nat) : mean_state :=
  foldl add_mean mean_state0 (slice values (win_start w i) (win_end i)).

(** The frame after the two assignments of [add_moving_averages]. *)
Definition with_moving_averages (df : DataFrame) (short long : list float64)
    : DataFrame :=
  assign "SMA_Long" long (assign "SMA_Short" short df).

(** The [signal] column: 1.0 where the short average is above the long. *)
Definition signal_column (sma_short sma_long : list float64) : list float64 :=
  np_where (zip_with fgt sma_short sma_long) f1 f0.

(** The frame [generate_signals] builds, column by column, in the order
    of its assignments. *)
Definition signals_frame (idx : list date) (close sma_short sma_long : list float64)
    : DataFrame :=
  assign "positions" (diff (signal_column sma_short sma_long))
    (assign "signal" (signal_column sma_short sma_long)
      (assign "signal" (replicate (length idx) f0)
        (assign "SMA_Long" sma_long
          (assign "SMA_Short" sma_short
            (assign "price" close (Frame idx ∅)))))).

(** [generate_signals data] run in [w] returns the new frame [sdf] at the
    new address [signals], in [main.py] (which also prints) and in
    [app.py]; nothing else in the store changes. *)
Definition generates (data : loc) (w : world) (signals : loc) (sdf : DataFrame)
    : Prop :=
  main_py.generate_signals data w
  = (inr signals,
     World (<[signals := sdf]> (heap w))
           (out w ++ [Print Generating; Print Generated]))
  ∧ app_py.generate_signals data w
    = (inr signals, World (<[signals := sdf]> (heap w)) (out w))
  ∧ heap w !! signals = None.

(** A regime flag: 0.0 or 1.0. *)
Definition flag (x : float64) : Prop := x = f0 ∨ x = f1.

(** An indicated series: the three columns [generate_signals] reads,
    aligned to the index. *)
Definition indicated (df : DataFrame) (close sma_short sma_long : list float64)
    : Prop :=
  columns df !! "Close" = Some close
  ∧ columns df !! "SMA_Short" = Some sma_short
  ∧ columns df !! "SMA_Long" = Some sma_long
  ∧ length close = length (index df)
  ∧ length sma_short = length (index df)
  ∧ length sma_long = length (index df).

(** The frame passed to [f] is, after the call, exactly as before. *)
Definition input_unchanged (f : loc → Z → Z → M loc) (data : loc)
    (short_window long_window : Z) (w : world) : Prop :=
  ∀ (r : exn + loc) (w' : world),
    f data short_window long_window w = (r, w') →
    heap w' !! data = heap w !! data.

(** The provider has nothing to give: the call raised, or the frame it
    returned is empty. *)
Definition unavailable (r : download_result) : Prop :=
  match r with
  | Raises _ => True
  | Returns df => empty df = true
  end.

(** The text [fetch_data] shows in either case. *)
Definition failure_text (ticker : string) (r : download_result) : text :=
  match r with
  | Raises e => FetchFailed e
  | Returns _ => NoDataFound ticker
  end.

(** ** Trade events *)

(** What one turn of the loop of [execute_trades] prints for the row
    labelled [d]. *)
Definition row_prints (d : date) (position price : float64) : list event :=
  if feq position f1 then [Print (BuyAt d price)]
  else if feq position fm1 then [Print (SellAt d price)]
  else [].

(** The prints of the whole loop, row by row. *)
Definition trade_rows (idx : list date) (positions price : list float64)
    : list (list event) :=
  zip_with (λ d pp, row_prints d pp.1 pp.2) idx (zip positions price).

(** The rows of the trade log of [app.py], read as the lines [main.py]
    would print for them. *)
Definition log_prints (log : TradeLog) : list event :=
  zip_with (λ d pa, match pa.2 with
                    | BUY => Print (BuyAt d pa.1)
                    | SELL => Print (SellAt d pa.1)
                    end)
    (log_index log) (zip (price_at_signal log) (log_action log)).

Definition is_buy (e : event) : bool :=
  match e with Print (BuyAt _ _) => true | _ => false end.

Definition is_sell (e : event) : bool :=
  match e with Print (SellAt _ _) => true | _ => false end.

Fixpoint count_if {A} (f : A → bool) (l : list A) : Z :=
  match l with
  | [] => 0
  | x :: l' => (if f x then 1 else 0) + count_if f l'
  end.

(** The body of the loop of [execute_trades]. *)
Definition trade_body (r : date * gmap string float64) : M unit :=
  let '(index, row) := r in
  p ← row_get row "positions";
  if feq p f1
  then price ← row_get row "price"; print (BuyAt index price)
  else
    p ← row_get row "positions";
    if feq p fm1
    then price ← row_get row "price"; print (SellAt index price)
    else mret tt.

(** A regime flag read as an integer. *)
Definition flagZ (x : float64) : Z := if feq x f1 then 1 else 0.

(** ** The composed pipeline *)

(** [generate(compute(series, s, l))] and the trade loop, chained as in
    [run_strategy], for any windows. *)
Definition main_pipeline (data : loc) (short_window long_window : Z) : M loc :=
  with_ma ← main_py.add_moving_averages data short_window long_window;
  signals ← main_py.generate_signals with_ma;
  main_py.execute_trades signals;;
  mret signals.

(** The same two calls as the script of [app.py] makes them. *)
Definition app_pipeline (data : loc) (short_window long_window : Z) : M loc :=
  with_ma ← app_py.add_moving_averages data short_window long_window;
  app_py.generate_signals with_ma.

(** What a run shows: the exception or the signal rows it returned, and
    the events it added to the trace. *)
Definition observed (before : world) (res : (exn + loc) * world)
    : (exn + option DataFrame) * list event :=
  (match res.1 with
   | inl e => inl e
   | inr signals => inr (heap res.2 !! signals)
   end,
   drop (length (out before)) (out res.2)).

(** The signal rows as a function of the index, the close column and the
    windows. *)
Definition signal_rows (idx : list date) (close : option (list float64))
    (short_window long_window : Z) : exn + DataFrame :=
  match close with
  | None => inl (KeyError "Close")
  | Some c =>
      match rolling_mean c short_window 1 with
      | inl e => inl e
      | inr short =>
          match rolling_mean c long_window 1 with
          | inl e => inl e
          | inr long => inr (signals_frame idx c short long)
          end
      end
  end.

(** The observation of [main_pipeline] as such a function. *)
Definition main_observation (idx : list date) (close : option (list float64))
    (short_window long_window : Z) : (exn + option DataFrame) * list event :=
  match signal_rows idx close short_window long_window with
  | inl e => (inl e, [Print (Calculating short_window long_window)])
  | inr sdf =>
      (inr (Some sdf),
       [Print (Calculating short_window long_window); Print Calculated;
        Print Generating; Print Generated; Print Executing]
       ++ concat (trade_rows idx
                    (default [] (columns sdf !! "positions"))
                    (default [] (columns sdf !! "price")))
       ++ [Print Complete])
  end.

Definition app_observation (idx : list date) (close : option (list float64))
    (short_window long_window : Z) : (exn + option DataFrame) * list event :=
  match signal_rows idx close short_window long_window with
  | inl e => (inl e, [])
  | inr sdf => (inr (Some sdf), [])
  end.

(** ** A worked series: ten closes, windows 2 and 4 *)

Definition example_close : list Qc :=
  QcZ <$> [10; 10; 10; 20; 20; 20; 20; 10; 10; 10].

Definition example_prices : DataFrame :=
  Frame [1; 2; 3; 4; 5; 6; 7; 8; 9; 10] {[ "Close" := Fin <$> example_close ]}.

Definition example_short : list float64 :=
  Fin <$> (sma_spec example_close 2 <$> seq 0 10).

Definition example_long : list float64 :=
  Fin <$> (sma_spec example_close 4 <$> seq 0 10).

Definition example_indicated : DataFrame :=
  with_moving_averages example_prices example_short example_long.

Definition example_world : world :=
  World {[ 1%positive := example_indicated ]} [].

(** The store before any frame has moving averages: the ten closes. *)
Definition example_fetched : world :=
  World {[ 1%positive := example_prices ]} [].

(** A provider that times out for AAPL and has no rows for anything else. *)
Definition example_outage (ticker start end_ : string) : download_result :=
  if bool_decide (ticker = "AAPL") then Raises "timed out"
  else Returns (Frame [] ∅).

(** A second store: the same ten closes in a frame at another address
    that already carries stale averages, next to an unrelated frame, after
    some output. *)
Definition example_stale : DataFrame :=
  assign "SMA_Short" (replicate 10 NaN)
    (assign "Volume" (replicate 10 f1) example_prices).

Definition example_other_world : world :=
  World {[ 1%positive := Frame [7] {[ "Close" := [f0] ]};
           5%positive := example_stale ]}
        [Print Fetched].

(** A provider that answers every request with the ten closes. *)
Definition example_provider (ticker start end_ : string) : download_result :=
  Returns example_prices.

(** A provider that has the ten closes for AAPL and no rows for any
    other ticker. *)
Definition example_aapl_only (ticker start end_ : string) : download_result :=
  if bool_decide (ticker = "AAPL") then Returns example_prices
  else Returns (Frame [] ∅).

(** The first five days of the worked series, with their averages: the
    series ends while the short average is above the long one. *)
Definition example_rally_close : list float64 :=
  Fin <$> [Q2Qc (10 # 1); Q2Qc (10 # 1); Q2Qc (10 # 1); Q2Qc (20 # 1);
           Q2Qc (20 # 1)].

Definition example_rally_short : list float64 :=
  Fin <$> [Q2Qc (10 # 1); Q2Qc (10 # 1); Q2Qc (10 # 1); Q2Qc (15 # 1);
           Q2Qc (20 # 1)].

Definition example_rally_long : list float64 :=
  Fin <$> [Q2Qc (10 # 1); Q2Qc (10 # 1); Q2Qc (10 # 1); Q2Qc (25 # 2);
           Q2Qc (15 # 1)].

Definition example_rally : DataFrame :=
  Frame [1; 2; 3; 4; 5]
    {[ "Close" := example_rally_close;
       "SMA_Short" := example_rally_short;
       "SMA_Long" := example_rally_long ]}.

Definition example_rally_world : world :=
  World {[ 1%positive := example_rally ]} [].

(** A series of one bar. *)
Definition example_single : world :=
  World {[ 1%positive := Frame [1] {[ "Close" := [Fin (QcZ 5)] ]} ]} [].

(** ** Notions used by the further properties *)


(** * The rolling mean on IEEE doubles

    The store model above keeps a price as an exact rational, which is
    what the statements about signals, positions and trades need: they
    only compare and subtract the flags 0.0 and 1.0.  The values of the
    two averages themselves are doubles, and their sums round and
    overflow.  This module therefore gives [Series.rolling(...).mean()]
    a second time, on binary64, as pandas' [roll_mean] computes it:
    Kahan-compensated running sum, counters for negative and for
    repeated values, and the clipping done in [calc_mean]. *)

Module binary64.

Record mean_state : Type := MeanState {
  nobs : Z;
  sum_x : float;
  neg_ct : Z;
  compensation_add : float;
  compensation_remove : float;
  num_consecutive_same_value : Z;
  prev_value : float
}.

Definition signbit (v : float) : bool := get_sign v.

(** [add_mean]: a NaN ([val != val]) is skipped. *)
Definition add_mean (a : mean_state) (val : float) : mean_state :=
  if PrimFloat.eqb val val then
    let y := (val - compensation_add a)%float in
    let t := (sum_x a + y)%float in
    MeanState (nobs a + 1) t
      (if signbit val then neg_ct a + 1 else neg_ct a)
      (t - sum_x a - y)%float
      (compensation_remove a)
      (if PrimFloat.eqb val (prev_value a)
       then num_consecutive_same_value a + 1 else 1)
      val
  else a.

Definition remove_mean (a : mean_state) (val : float) : mean_state :=
  if PrimFloat.eqb val val then
    let y := (- val - compensation_remove a)%float in
    let t := (sum_x a + y)%float in
    MeanState (nobs a - 1) t
      (if signbit val then neg_ct a - 1 else neg_ct a)
      (compensation_add a)
      (t - sum_x a - y)%float
      (num_consecutive_same_value a)
      (prev_value a)
  else a.

(** The observation count as a double; exact, as the count is below 2^63. *)
Definition float_of_Z (z : Z) : float := PrimFloat.of_uint63 (Uint63.of_Z z).

Definition calc_mean (minp : Z) (a : mean_state) : float :=
  if (minp <=? nobs a) && (0 <? nobs a) then
    let result := (sum_x a / float_of_Z (nobs a))%float in
    if nobs a <=? num_consecutive_same_value a then prev_value a
    else if (neg_ct a =? 0) && PrimFloat.ltb result 0%float then 0%float
    else if (neg_ct a =? nobs a) && PrimFloat.ltb 0%float result then 0%float
    else result
  else nan.

(** The state a window starts from when it is summed from scratch. *)
Definition setup (values : list float) (s : nat) : mean_state :=
  MeanState 0 0%float 0 0%float 0%float 0 (default 0%float (values !! s)).

(** The state after row [i], from the one after row [i - 1]. *)
Definition next_state (values : list float) (w i : nat) (a : mean_state)
    : mean_state :=
  let s := win_start w i in
  let e := win_end i in
  if (i =? 0)%nat || (win_end (i - 1) <=? s)%nat
  then foldl add_mean (setup values s) (slice values s e)
  else foldl add_mean
         (foldl remove_mean a (slice values (win_start w (i - 1)) s))
         (slice values (win_end (i - 1)) e).

Fixpoint roll_mean (values : list float) (w : nat) (minp : Z)
    (rows : list nat) (a : mean_state) : list float :=
  match rows with
  | [] => []
  | i :: rows' =>
      let a' := next_state values w i a in
      calc_mean minp a' :: roll_mean values w minp rows' a'
  end.

(** [_prep_values]: an infinite input is treated as missing. *)
Definition prep_value (v : float) : float :=
  if is_infinity v then nan else v.

Definition prep_values (values : list float) : list float :=
  prep_value <$> values.

(** The two checks of the rolling object, the conversion of the window
    to a 64-bit integer, then the pass. *)
Definition rolling_mean (values : list float) (window min_periods : Z)
    : exn + list float :=
  if window <? min_periods
  then inl (ValueError "min_periods must be <= window")
  else if window <? 0
  then inl (ValueError "window must be an integer 0 or greater")
  else if 2 ^ 63 <=? window
  then inl (OtherError "OverflowError")
  else inr (roll_mean (prep_values values) (Z.to_nat window) min_periods
              (seq 0 (length values)) (setup [] 0)).

(** The two assignments of [add_moving_averages], the same in both
    files, on the columns of the frame they update. *)
Definition add_moving_averages (data : gmap string (list float))
    (short_window long_window : Z) : exn + gmap string (list float) :=
  match data !! "Close" with
  | None => inl (KeyError "Close")
  | Some close =>
      match rolling_mean close short_window 1 with
      | inl e => inl e
      | inr short =>
          let data := <["SMA_Short" := short]> data in
          match data !! "Close" with
          | None => inl (KeyError "Close")
          | Some close =>
              match rolling_mean close long_window 1 with
              | inl e => inl e
              | inr long => inr (<["SMA_Long" := long]> data)
              end
          end
      end
  end.

(** The state after row [i] of the pass. *)
Fixpoint state_at (values : list float) (w i : nat) : mean_state :=
  match i with
  | O => next_state values w 0 (setup [] 0)
  | S j => next_state values w (S j) (state_at values w j)
  end.

(** ** The arithmetic mean of a window of doubles *)

(** The rational a finite double stands for. *)
Definition F2Q (x : float) : option Q :=
  match Prim2SF x with
  | S754_zero _ => Some 0%Q
  | S754_finite s m e =>
      Some ((if s then - inject_Z (Z.pos m) else inject_Z (Z.pos m))
            * Qpower 2 e)%Q
  | _ => None
  end.

Definition finite (v : float) : bool :=
  match F2Q v with Some _ => true | None => false end.

Definition valQ (v : float) : Q := default 0%Q (F2Q v).

Definition sumQ (l : list float) : Q := foldr (λ v acc, valQ v + acc)%Q 0%Q l.

(** [close[max(0, i-w+1) .. i]] *)
Definition window (close : list float) (w : Z) (i : nat) : list float :=
  slice close (Z.to_nat (Z.max 0 (Z.of_nat i - w + 1))) (i + 1).

(** [a] is a number, the window is not empty and holds numbers only,
    and [a] times their count is their sum. *)
Definition is_mean_of (a : float) (win : list float) : bool :=
  match F2Q a with
  | Some q =>
      forallb finite win
      && negb (length win =? 0)%nat
      && Qeq_bool (q * inject_Z (Z.of_nat (length win))) (sumQ win)
  | None => false
  end.

(** A close that counts as an observation: not NaN and not infinite. *)
Definition present (v : float) : bool :=
  PrimFloat.eqb v v && negb (is_infinity v).

Fixpoint count_present (l : list float) : Z :=
  match l with
  | [] => 0
  | v :: l' => if present v then 1 + count_present l' else count_present l'
  end.

Fixpoint sum_present (l : list float) : Q :=
  match l with
  | [] => 0%Q
  | v :: l' => if present v then (valQ v + sum_present l')%Q else sum_present l'
  end.

(** [a] is the mean of the closes of the window that are present. *)
Definition is_mean_of_present (a : float) (win : list float) : bool :=
  match F2Q a with
  | Some q =>
      forallb (λ v, implb (present v) (finite v)) win
      && (0 <? count_present win)
      && Qeq_bool (q * inject_Z (count_present win)) (sum_present win)
  | None => false
  end.

(** ** Passes without rounding

    [exact_pass close w] runs the pass and checks, at each step, that
    the double it produced is the exact result: every update of the
    running sum by a value that is not skipped, and the quotient of
    every row that has an observation. *)

Definition exact_add (a : mean_state) (v : float) : bool :=
  if PrimFloat.eqb v v
  then match F2Q (sum_x a), F2Q v, F2Q (sum_x (add_mean a v)) with
       | Some s, Some q, Some s' => Qeq_bool s' (s + q)
       | _, _, _ => false
       end
  else true.

Definition exact_remove (a : mean_state) (v : float) : bool :=
  if PrimFloat.eqb v v
  then match F2Q (sum_x a), F2Q v, F2Q (sum_x (remove_mean a v)) with
       | Some s, Some q, Some s' => Qeq_bool s' (s - q)
       | _, _, _ => false
       end
  else true.

Fixpoint exact_adds (a : mean_state) (l : list float) : bool :=
  match l with
  | [] => true
  | v :: l' => exact_add a v && exact_adds (add_mean a v) l'
  end.

Fixpoint exact_removes (a : mean_state) (l : list float) : bool :=
  match l with
  | [] => true
  | v :: l' => exact_remove a v && exact_removes (remove_mean a v) l'
  end.

Definition exact_mean (minp : Z) (a : mean_state) : bool :=
  if nobs a =? 0 then true
  else match F2Q (calc_mean minp a), F2Q (sum_x a) with
       | Some q, Some s => Qeq_bool (q * inject_Z (nobs a)) s
       | _, _ => false
       end.

Definition exact_step (values : list float) (w i : nat) (a : mean_state)
    : bool :=
  let s := win_start w i in
  let e := win_end i in
  if (i =? 0)%nat || (win_end (i - 1) <=? s)%nat
  then exact_adds (setup values s) (slice values s e)
  else exact_removes a (slice values (win_start w (i - 1)) s)
       && exact_adds
            (foldl remove_mean a (slice values (win_start w (i - 1)) s))
            (slice values (win_end (i - 1)) e).

Fixpoint exact_rows (values : list float) (w : nat) (minp : Z)
    (rows : list nat) (a : mean_state) : bool :=
  match rows with
  | [] => true
  | i :: rows' =>
      let a' := next_state values w i a in
      exact_step values w i a && exact_mean minp a'
      && exact_rows values w minp rows' a'
  end.

Definition exact_pass (values : list float) (window : Z) : bool :=
  exact_rows (prep_values values) (Z.to_nat window) 1
    (seq 0 (length values)) (setup [] 0).

(** What holds of the running sum after row [i] in a pass without
    rounding, in terms of the closes as given. *)
Definition tracks (values : list float) (w i : nat) (a : mean_state) : Prop :=
  let win := slice values (win_start w i) (win_end i) in
  Forall (λ v, present v = true → finite v = true) win
  ∧ ∃ s : Q, F2Q (sum_x a) = Some s ∧ (s == sum_present win)%Q.

(** ** Example series *)

(** The worked series: ten at first, twenty for four days, ten again. *)
Definition worked_close : list float :=
  [10; 10; 10; 20; 20; 20; 20; 10; 10; 10]%float.



(** A close is missing on the second and third day. *)
Definition example_gaps : list float :=
  [10; nan; nan; 20; 30]%float.

End binary64.

(** * Proofs *)

(** ** Slices *)

Lemma slice_split {A} (l : list A) (s m e : nat) :
  (s ≤ m)%nat → (m ≤ e)%nat → slice l s e = slice l s m ++ slice l m e.
Proof.
  intros Hsm Hme. unfold slice.
  replace (e - s)%nat with ((m - s) + (e - m))%nat by lia.
  rewrite <- take_take_drop, drop_drop.
  by replace (s + (m - s))%nat with m by lia.
Qed.

Lemma slice_length {A} (l : list A) (s e : nat) :
  (e ≤ length l)%nat → length (slice l s e) = (e - s)%nat.
Proof. intros He. unfold slice. rewrite length_take, length_drop. lia. Qed.

Lemma slice_fmap {A B} (f : A → B) (l : list A) (s e : nat) :
  slice (f <$> l) s e = f <$> slice l s e.
Proof. unfold slice. by rewrite fmap_take, fmap_drop. Qed.


(** ** The single pass computes every window from scratch *)

Lemma count_obs_app (l k : list float64) :
  count_obs (l ++ k) = count_obs l + count_obs k.
Proof. induction l as [|[q|] l IH]; simpl; lia. Qed.

Lemma sum_obs_app (l k : list float64) :
  sum_obs (l ++ k) = (sum_obs l + sum_obs k)%Qc.
Proof. induction l as [|[q|] l IH]; simpl; rewrite ?IH; ring. Qed.

Lemma foldl_add_mean (a : mean_state) (l : list float64) :
  foldl add_mean a l
  = MeanState (nobs a + count_obs l) (sum_x a + sum_obs l)%Qc.
Proof.
  revert a. induction l as [|[q|] l IH]; intros [n s]; simpl.
  - f_equal; [lia | ring].
  - rewrite IH. simpl. f_equal; [lia | ring].
  - by rewrite IH.
Qed.

Lemma foldl_remove_mean (a : mean_state) (l : list float64) :
  foldl remove_mean a l
  = MeanState (nobs a - count_obs l) (sum_x a - sum_obs l)%Qc.
Proof.
  revert a. induction l as [|[q|] l IH]; intros [n s]; simpl.
  - f_equal; [lia | ring].
  - rewrite IH. simpl. f_equal; [lia | ring].
  - by rewrite IH.
Qed.

Lemma window_state_slide (values : list float64) (w i : nat) :
  (0 < i)%nat → ¬ (win_end (i - 1) ≤ win_start w i)%nat →
  foldl add_mean
    (foldl remove_mean (window_state values w (i - 1))
       (slice values (win_start w (i - 1)) (win_start w i)))
    (slice values (win_end (i - 1)) (win_end i))
  = window_state values w i.
Proof.
  unfold window_state, win_start, win_end. intros Hi Hw.
  rewrite (slice_split values (i - 1 + 1 - w) (i + 1 - w) (i - 1 + 1)) by lia.
  rewrite (slice_split values (i + 1 - w) (i - 1 + 1) (i + 1)) by lia.
  rewrite !foldl_add_mean, foldl_remove_mean, !count_obs_app, !sum_obs_app.
  simpl. f_equal; [lia | ring].
Qed.

Lemma roll_mean_loop_windows (values : list float64) (w : nat) (minp : Z)
    (k n : nat) (a : mean_state) :
  (k = 0%nat ∨ a = window_state values w (k - 1)) →
  roll_mean_loop values w minp (seq k n) a
  = (λ i, calc_mean minp (window_state values w i)) <$> seq k n.
Proof.
  revert k a. induction n as [|n IH]; intros k a Ha; [done|].
  cbn [seq roll_mean_loop fmap list_fmap].
  match goal with |- calc_mean _ ?x :: _ = _ => set (a' := x) end.
  assert (a' = window_state values w k) as ->.
  { subst a'.
    destruct ((k =? 0)%nat || (win_end (k - 1) <=? win_start w k)%nat) eqn:Hc.
    - done.
    - apply orb_false_elim in Hc as [Hk Hle].
      apply Nat.eqb_neq in Hk. apply Nat.leb_gt in Hle.
      destruct Ha as [->| ->]; [done|].
      apply window_state_slide; lia. }
  f_equal. apply IH. right. by replace (S k - 1)%nat with k by lia.
Qed.

(** ** Windows without NaN *)



Lemma win_start_max (w : Z) (i : nat) :
  0 < w → win_start (Z.to_nat w) i = Z.to_nat (Z.max 0 (Z.of_nat i - w + 1)).
Proof. unfold win_start. lia. Qed.



Example exact_averages_of_three_closes :
  rolling_mean [Fin (Q2Qc (10 # 1)); Fin (Q2Qc (20 # 1)); Fin (Q2Qc (60 # 1))]
    2 1
  = inr [Fin (Q2Qc (10 # 1)); Fin (Q2Qc (15 # 1)); Fin (Q2Qc (40 # 1))]
  ∧ QcZ 7 = Q2Qc (7 # 1)
  ∧ fsub (Fin (Q2Qc (7 # 1))) (Fin (Q2Qc (5 # 2))) = Fin (Q2Qc (9 # 2)).
Proof.
  repeat split; vm_compute;
    repeat first [reflexivity | apply Qc_is_canon; reflexivity | f_equal].
Qed.

(** ** Running the primitives *)

Lemma bind_inr {A B} (m : M A) (f : A → M B) (w w' : world) (x : A) :
  m w = (inr x, w') → (m ≫= f) w = f x w'.
Proof. intros H. unfold mbind, M_bind, bind. by rewrite H. Qed.

Lemma bind_inl {A B} (m : M A) (f : A → M B) (w w' : world) (e : exn) :
  m w = (inl e, w') → (m ≫= f) w = (inl e, w').
Proof. intros H. unfold mbind, M_bind, bind. by rewrite H. Qed.

Lemma load_run (l : loc) (df : DataFrame) (w : world) :
  heap w !! l = Some df → load l w = (inr df, w).
Proof. intros H. unfold load. by rewrite H. Qed.

Lemma getcol_run (l : loc) (k : string) (df : DataFrame) (c : list float64)
    (w : world) :
  heap w !! l = Some df → columns df !! k = Some c →
  getcol l k w = (inr c, w).
Proof.
  intros Hl Hk. unfold getcol. rewrite (bind_inr _ _ _ _ _ (load_run _ _ _ Hl)).
  by rewrite Hk.
Qed.

Lemma getcol_missing (l : loc) (k : string) (df : DataFrame) (w : world) :
  heap w !! l = Some df → columns df !! k = None →
  getcol l k w = (inl (KeyError k), w).
Proof.
  intros Hl Hk. unfold getcol. rewrite (bind_inr _ _ _ _ _ (load_run _ _ _ Hl)).
  by rewrite Hk.
Qed.

Lemma setcol_run (l : loc) (k : string) (c : list float64) (df : DataFrame)
    (w : world) :
  heap w !! l = Some df →
  setcol l k c w = (inr tt, World (<[l := assign k c df]> (heap w)) (out w)).
Proof. intros H. unfold setcol. by rewrite H. Qed.

Lemma emit_run (e : event) (w : world) :
  emit e w = (inr tt, World (heap w) (out w ++ [e])).
Proof. done. Qed.

Lemma ret_run {A} (x : A) (w : world) : (mret x : M A) w = (inr x, w).
Proof. done. Qed.

(** ** [add_moving_averages] *)

Lemma assign_moving_averages_run (w : world) (data : loc) (df : DataFrame)
    (close short long : list float64) (short_window long_window : Z) :
  heap w !! data = Some df →
  columns df !! "Close" = Some close →
  rolling_mean close short_window 1 = inr short →
  rolling_mean close long_window 1 = inr long →
  assign_moving_averages data short_window long_window w
  = (inr tt, World (<[data := with_moving_averages df short long]> (heap w))
                   (out w)).
Proof.
  intros Hd Hc Hs Hl. unfold assign_moving_averages.
  rewrite (bind_inr _ _ _ _ _ (getcol_run _ _ _ _ _ Hd Hc)).
  rewrite Hs. cbn [lift]. rewrite (bind_inr _ _ _ _ _ (ret_run _ _)).
  rewrite (bind_inr _ _ _ _ _ (setcol_run _ _ _ _ _ Hd)).
  set (w1 := World _ _).
  assert (heap w1 !! data = Some (assign "SMA_Short" short df)) as Hd1
    by apply lookup_insert_eq.
  assert (columns (assign "SMA_Short" short df) !! "Close" = Some close) as Hc1
    by (simpl; by rewrite lookup_insert_ne).
  rewrite (bind_inr _ _ _ _ _ (getcol_run _ _ _ _ _ Hd1 Hc1)).
  rewrite Hl. cbn [lift]. rewrite (bind_inr _ _ _ _ _ (ret_run _ _)).
  rewrite (setcol_run _ _ _ _ _ Hd1). subst w1. simpl.
  by rewrite insert_insert_eq.
Qed.

(** ** The rolling mean on doubles *)

Module binary64_facts.
Import binary64.

Lemma F2Q_valQ (v : float) (q : Q) : F2Q v = Some q → valQ v = q.
Proof. intros H. unfold valQ. by rewrite H. Qed.

Lemma F2Q_zero : F2Q 0%float = Some 0%Q.
Proof. reflexivity. Qed.

(** A close is either present and passed on as it is, or skipped. *)
Lemma prep_value_cases (v : float) :
  (present v = true ∧ prep_value v = v ∧ PrimFloat.eqb v v = true)
  ∨ (present v = false
     ∧ PrimFloat.eqb (prep_value v) (prep_value v) = false).
Proof.
  unfold present, prep_value.
  destruct (is_infinity v); [right; by rewrite andb_false_r|].
  destruct (PrimFloat.eqb v v) eqn:E; [by left | by right].
Qed.

Lemma slice_prep_values (values : list float) (s e : nat) :
  slice (prep_values values) s e = prep_values (slice values s e).
Proof. apply slice_fmap. Qed.

Lemma count_present_app (l k : list float) :
  count_present (l ++ k) = count_present l + count_present k.
Proof.
  induction l as [|v l IH]; [done|]. simpl. destruct (present v); lia.
Qed.

Lemma sum_present_app (l k : list float) :
  (sum_present (l ++ k) == sum_present l + sum_present k)%Q.
Proof.
  induction l as [|v l IH]; simpl; [ring|].
  destruct (present v); rewrite ?IH; ring.
Qed.

Lemma count_present_all (l : list float) :
  forallb present l = true → count_present l = Z.of_nat (length l).
Proof.
  induction l as [|v l IH]; [done|]. cbn [forallb count_present length].
  intros H. apply andb_true_iff in H as [-> H]. rewrite IH by done. lia.
Qed.

Lemma sum_present_all (l : list float) :
  forallb present l = true → sum_present l = sumQ l.
Proof.
  unfold sumQ. induction l as [|v l IH]; [done|].
  cbn [forallb sum_present foldr].
  intros H. apply andb_true_iff in H as [-> H]. by rewrite IH.
Qed.

(** *** The number of observations *)

Lemma nobs_adds (l : list float) (a : mean_state) :
  nobs (foldl add_mean a (prep_values l)) = nobs a + count_present l.
Proof.
  revert a. induction l as [|v l IH]; intros a; [simpl; lia|].
  unfold prep_values. rewrite fmap_cons. cbn [foldl count_present].
  fold (prep_values l). rewrite IH. unfold add_mean.
  destruct (prep_value_cases v) as [(-> & -> & ->)|(-> & ->)]; simpl; lia.
Qed.

Lemma nobs_removes (l : list float) (a : mean_state) :
  nobs (foldl remove_mean a (prep_values l)) = nobs a - count_present l.
Proof.
  revert a. induction l as [|v l IH]; intros a; [simpl; lia|].
  unfold prep_values. rewrite fmap_cons. cbn [foldl count_present].
  fold (prep_values l). rewrite IH. unfold remove_mean.
  destruct (prep_value_cases v) as [(-> & -> & ->)|(-> & ->)]; simpl; lia.
Qed.

Lemma next_state_nobs (values : list float) (w i : nat) (a : mean_state) :
  (i = 0%nat
   ∨ nobs a
     = count_present (slice values (win_start w (i - 1)) (win_end (i - 1)))) →
  nobs (next_state (prep_values values) w i a)
  = count_present (slice values (win_start w i) (win_end i)).
Proof.
  unfold next_state. intros Hprev.
  destruct ((i =? 0)%nat || (win_end (i - 1) <=? win_start w i)%nat) eqn:Hc.
  - by rewrite slice_prep_values, nobs_adds.
  - apply orb_false_elim in Hc as [Hk Hle].
    apply Nat.eqb_neq in Hk. apply Nat.leb_gt in Hle.
    destruct Hprev as [->|Np]; [done|].
    rewrite !slice_prep_values, nobs_adds, nobs_removes, Np.
    unfold win_start, win_end in *.
    rewrite (slice_split values (i - 1 + 1 - w) (i + 1 - w) (i - 1 + 1)) by lia.
    rewrite (slice_split values (i + 1 - w) (i - 1 + 1) (i + 1)) by lia.
    rewrite !count_present_app. lia.
Qed.

Lemma state_at_nobs (values : list float) (w i : nat) :
  nobs (state_at (prep_values values) w i)
  = count_present (slice values (win_start w i) (win_end i)).
Proof.
  induction i as [|i IH]; cbn [state_at]; apply next_state_nobs; [by left|].
  right. by replace (S i - 1)%nat with i by lia.
Qed.

(** *** The running sum in a pass without rounding *)

Lemma add_mean_exact (a : mean_state) (v : float) (s : Q) :
  exact_add a (prep_value v) = true → F2Q (sum_x a) = Some s →
  (present v = true → finite v = true)
  ∧ ∃ s' : Q,
      F2Q (sum_x (add_mean a (prep_value v))) = Some s'
      ∧ (s' == s + sum_present [v])%Q.
Proof.
  intros H Hs. cbn [sum_present].
  destruct (prep_value_cases v) as [(Hp & E & Hv)|(Hp & Hv)]; rewrite Hp.
  - rewrite E in *. unfold exact_add in H. rewrite Hv, Hs in H.
    unfold finite. destruct (F2Q v) as [q|] eqn:Eq; [|done].
    destruct (F2Q (sum_x (add_mean a v))) as [s'|] eqn:Es'; [|done].
    apply Qeq_bool_iff in H. split; [done|]. exists s'. split; [done|].
    rewrite (F2Q_valQ v q Eq), H. ring.
  - split; [done|]. exists s. unfold add_mean. rewrite Hv.
    split; [done | ring].
Qed.

Lemma remove_mean_exact (a : mean_state) (v : float) (s : Q) :
  exact_remove a (prep_value v) = true → F2Q (sum_x a) = Some s →
  ∃ s' : Q,
    F2Q (sum_x (remove_mean a (prep_value v))) = Some s'
    ∧ (s' == s - sum_present [v])%Q.
Proof.
  intros H Hs. cbn [sum_present].
  destruct (prep_value_cases v) as [(Hp & E & Hv)|(Hp & Hv)]; rewrite Hp.
  - rewrite E in *. unfold exact_remove in H. rewrite Hv, Hs in H.
    destruct (F2Q v) as [q|] eqn:Eq; [|done].
    destruct (F2Q (sum_x (remove_mean a v))) as [s'|] eqn:Es'; [|done].
    apply Qeq_bool_iff in H. exists s'. split; [done|].
    rewrite (F2Q_valQ v q Eq), H. ring.
  - exists s. unfold remove_mean. rewrite Hv. split; [done | ring].
Qed.

Lemma adds_exact (l : list float) (a : mean_state) (s : Q) :
  exact_adds a (prep_values l) = true → F2Q (sum_x a) = Some s →
  Forall (λ v, present v = true → finite v = true) l
  ∧ ∃ s' : Q,
      F2Q (sum_x (foldl add_mean a (prep_values l))) = Some s'
      ∧ (s' == s + sum_present l)%Q.
Proof.
  revert a s. induction l as [|v l IH]; intros a s H Hs.
  { split; [constructor|]. exists s. split; [done | simpl; ring]. }
  unfold prep_values in *. rewrite fmap_cons in *.
  cbn [exact_adds foldl] in *. apply andb_true_iff in H as [Hv Hl].
  destruct (add_mean_exact a v s Hv Hs) as (Fv & s1 & Hs1 & E1).
  destruct (IH _ s1 Hl Hs1) as (Fl & s2 & Hs2 & E2).
  split; [by constructor|]. exists s2. split; [done|].
  rewrite E2, E1. change (v :: l) with ([v] ++ l).
  rewrite (sum_present_app [v] l). ring.
Qed.

Lemma removes_exact (l : list float) (a : mean_state) (s : Q) :
  exact_removes a (prep_values l) = true → F2Q (sum_x a) = Some s →
  ∃ s' : Q,
    F2Q (sum_x (foldl remove_mean a (prep_values l))) = Some s'
    ∧ (s' == s - sum_present l)%Q.
Proof.
  revert a s. induction l as [|v l IH]; intros a s H Hs.
  { exists s. split; [done | simpl; ring]. }
  unfold prep_values in *. rewrite fmap_cons in *.
  cbn [exact_removes foldl] in *. apply andb_true_iff in H as [Hv Hl].
  destruct (remove_mean_exact a v s Hv Hs) as (s1 & Hs1 & E1).
  destruct (IH _ s1 Hl Hs1) as (s2 & Hs2 & E2).
  exists s2. split; [done|].
  rewrite E2, E1. change (v :: l) with ([v] ++ l).
  rewrite (sum_present_app [v] l). ring.
Qed.

Lemma step_tracks (values : list float) (w i : nat) (a : mean_state) :
  exact_step (prep_values values) w i a = true →
  (i = 0%nat ∨ tracks values w (i - 1) a) →
  tracks values w i (next_state (prep_values values) w i a).
Proof.
  unfold exact_step, next_state, tracks. intros Hex Hprev.
  destruct ((i =? 0)%nat || (win_end (i - 1) <=? win_start w i)%nat) eqn:Hc.
  - rewrite slice_prep_values in *.
    destruct (adds_exact _ _ 0%Q Hex F2Q_zero) as (F & s' & Hs' & E).
    split; [done|]. exists s'. split; [done|]. rewrite E. ring.
  - apply orb_false_elim in Hc as [Hk Hle].
    apply Nat.eqb_neq in Hk. apply Nat.leb_gt in Hle.
    destruct Hprev as [->|(Fp & s & Hs & Es)]; [done|].
    rewrite !slice_prep_values in *.
    apply andb_true_iff in Hex as [Hrem Hadd].
    destruct (removes_exact _ _ s Hrem Hs) as (s1 & Hs1 & E1).
    destruct (adds_exact _ _ s1 Hadd Hs1) as (F2 & s2 & Hs2 & E2).
    unfold win_start, win_end in *.
    rewrite (slice_split values (i - 1 + 1 - w) (i + 1 - w) (i - 1 + 1))
      in Fp, Es by lia.
    rewrite (slice_split values (i + 1 - w) (i - 1 + 1) (i + 1)) by lia.
    rewrite sum_present_app in Es. apply Forall_app in Fp as [_ Fk].
    split; [by apply Forall_app|].
    exists s2. split; [done|]. rewrite sum_present_app, E2, E1, Es. ring.
Qed.

(** *** Rows *)

Lemma roll_mean_states (values : list float) (w : nat) (minp : Z)
    (k n : nat) (a : mean_state) :
  (k = 0%nat ∨ a = state_at values w (k - 1)) →
  roll_mean values w minp (seq k n) a
  = (λ i, calc_mean minp (state_at values w i)) <$> seq k n.
Proof.
  revert k a. induction n as [|n IH]; intros k a Ha; [done|].
  cbn [seq roll_mean fmap list_fmap].
  assert (next_state values w k a = state_at values w k) as ->.
  { destruct Ha as [->| ->]; [done|].
    destruct k as [|k]; [done|]. cbn [state_at].
    by replace (S k - 1)%nat with k by lia. }
  f_equal. apply IH. right. by replace (S k - 1)%nat with k by lia.
Qed.

Lemma exact_rows_states (values : list float) (w : nat) (minp : Z)
    (k n : nat) (a : mean_state) :
  (k = 0%nat ∨ a = state_at values w (k - 1)) →
  exact_rows values w minp (seq k n) a = true →
  ∀ i : nat, (k ≤ i < k + n)%nat →
    exact_step values w i
      (match i with O => a | S j => state_at values w j end) = true
    ∧ exact_mean minp (state_at values w i) = true.
Proof.
  revert k a. induction n as [|n IH]; intros k a Ha Hex i Hi; [lia|].
  cbn [seq exact_rows] in Hex.
  apply andb_true_iff in Hex as [Hex Hrest].
  apply andb_true_iff in Hex as [Hstep Hmean].
  assert (next_state values w k a = state_at values w k) as E.
  { destruct Ha as [->| ->]; [done|].
    destruct k as [|k]; [done|]. cbn [state_at].
    by replace (S k - 1)%nat with k by lia. }
  rewrite E in Hmean, Hrest.
  destruct (decide (i = k)) as [->|Hne].
  - split; [|done]. destruct k as [|k]; [done|].
    destruct Ha as [?| ->]; [done|].
    by replace (S k - 1)%nat with k in Hstep by lia.
  - destruct (IH (S k) (state_at values w k)) with (i := i) as [H1 H2];
      [right; by replace (S k - 1)%nat with k by lia | done | lia |].
    split; [|done]. by destruct i as [|j]; [lia|].
Qed.

Lemma state_at_tracks (values : list float) (w n i : nat) :
  exact_rows (prep_values values) w 1 (seq 0 n) (setup [] 0) = true →
  (i < n)%nat →
  tracks values w i (state_at (prep_values values) w i)
  ∧ exact_mean 1 (state_at (prep_values values) w i) = true.
Proof.
  intros Hex Hi.
  pose proof (exact_rows_states _ _ _ 0 n _ (or_introl eq_refl) Hex) as Hrows.
  split; [|by apply Hrows; lia].
  induction i as [|i IH].
  - apply step_tracks; [|by left]. apply (Hrows 0%nat). lia.
  - cbn [state_at]. apply step_tracks; [apply (Hrows (S i)); lia|].
    right. replace (S i - 1)%nat with i by lia. apply IH. lia.
Qed.

Lemma roll_mean_length (values : list float) (w : nat) (minp : Z)
    (rows : list nat) (a : mean_state) :
  length (roll_mean values w minp rows a) = length rows.
Proof.
  revert a. induction rows as [|i rows IH]; intros a; [done|].
  simpl. by rewrite IH.
Qed.

Lemma rolling_mean_run (values : list float) (w : Z) :
  0 < w < 2 ^ 63 →
  rolling_mean values w 1
  = inr ((λ i, calc_mean 1 (state_at (prep_values values) (Z.to_nat w) i))
           <$> seq 0 (length values)).
Proof.
  intros Hw. unfold rolling_mean.
  destruct (w <? 1) eqn:H1; [apply Z.ltb_lt in H1; lia|].
  destruct (w <? 0) eqn:H0; [apply Z.ltb_lt in H0; lia|].
  destruct (2 ^ 63 <=? w) eqn:H2; [apply Z.leb_le in H2; lia|].
  f_equal. apply roll_mean_states. by left.
Qed.

Lemma window_slice (close : list float) (w : Z) (i : nat) :
  0 < w →
  slice close (win_start (Z.to_nat w) i) (win_end i) = window close w i.
Proof. intros Hw. unfold window, win_end. by rewrite win_start_max. Qed.

Lemma window_length (close : list float) (w : Z) (i : nat) :
  0 < w → (i < length close)%nat →
  length (window close w i) = Z.to_nat (Z.min w (Z.of_nat i + 1)).
Proof. intros Hw Hi. unfold window. rewrite slice_length by lia. lia. Qed.


Lemma window_present (close : list float) (w : Z) (i : nat) :
  forallb present close = true → forallb present (window close w i) = true.
Proof.
  intros H. rewrite forallb_forall in H. apply List.Forall_forall in H.
  apply forallb_forall, List.Forall_forall.
  unfold window, slice. by apply Forall_take, Forall_drop.
Qed.

(** Every row is NaN when its window holds no observation; in a pass
    without rounding it is otherwise the mean of the closes present. *)
Lemma rolling_mean_rows (close : list float) (w : Z) :
  0 < w < 2 ^ 63 →
  ∃ sma : list float,
    rolling_mean close w 1 = inr sma
    ∧ length sma = length close
    ∧ ∀ i : nat, (i < length close)%nat →
        ∃ a : float,
          sma !! i = Some a
          ∧ (count_present (window close w i) = 0 → is_nan a = true)
          ∧ (exact_pass close w = true →
             0 < count_present (window close w i) →
             is_mean_of_present a (window close w i) = true).
Proof.
  intros Hw. eexists. split; [by apply rolling_mean_run|].
  split; [by rewrite length_fmap, length_seq|].
  intros i Hi. rewrite list_lookup_fmap, lookup_seq_lt by done. simpl.
  eexists. split; [done|].
  pose proof (state_at_nobs close (Z.to_nat w) i) as Hn.
  rewrite window_slice in Hn by lia. split.
  - intros H0. unfold calc_mean. rewrite Hn, H0. reflexivity.
  - intros Hex Hpos.
    destruct (state_at_tracks close (Z.to_nat w) _ i Hex Hi)
      as [(Hf & s & Hs & Es) Hm].
    simpl in Hf, Es. rewrite window_slice in Hf, Es by lia.
    unfold exact_mean in Hm. rewrite Hn in Hm.
    destruct (Z.eqb_spec (count_present (window close w i)) 0); [lia|].
    unfold is_mean_of_present.
    destruct (F2Q (calc_mean 1 _)) as [q|]; [|done].
    rewrite Hs in Hm. apply Qeq_bool_iff in Hm.
    apply andb_true_iff. split; [apply andb_true_iff; split|].
    + apply forallb_forall. intros v Hv.
      rewrite Forall_forall in Hf. apply list_elem_of_In in Hv.
      specialize (Hf v Hv). destruct (present v); [|done].
      simpl. by apply Hf.
    + by apply Z.ltb_lt.
    + apply Qeq_bool_iff. rewrite Hm. exact Es.
Qed.

(** With every close present, the mean of the closes present is the
    mean of the window. *)
Lemma is_mean_of_all_present (a : float) (win : list float) :
  forallb present win = true →
  is_mean_of_present a win = true → is_mean_of a win = true.
Proof.
  intros Hp. unfold is_mean_of_present, is_mean_of.
  destruct (F2Q a) as [q|]; [|done].
  rewrite count_present_all, sum_present_all by done.
  intros H. apply andb_true_iff in H as [H Hq].
  apply andb_true_iff in H as [Hf Hc]. rewrite Hq, andb_true_r.
  apply andb_true_iff. split.
  - apply forallb_forall. intros v Hv.
    rewrite forallb_forall in Hf, Hp.
    specialize (Hf v Hv). by rewrite (Hp v Hv) in Hf.
  - apply Z.ltb_lt in Hc. apply negb_true_iff, Nat.eqb_neq. lia.
Qed.

Lemma exact_pass_means (close : list float) (w : Z) :
  0 < w < 2 ^ 63 →
  forallb present close = true → exact_pass close w = true →
  ∃ sma : list float,
    rolling_mean close w 1 = inr sma
    ∧ length sma = length close
    ∧ ∀ i : nat, (i < length close)%nat →
        ∃ a : float, sma !! i = Some a ∧ is_mean_of a (window close w i) = true.
Proof.
  intros Hw Hp Hex.
  destruct (rolling_mean_rows close w Hw) as (sma & Hr & Hl & Hrows).
  exists sma. split; [done|]. split; [done|]. intros i Hi.
  destruct (Hrows i Hi) as (a & Ha & _ & Hm). exists a. split; [done|].
  pose proof (window_present close w i Hp) as Hwp.
  apply is_mean_of_all_present; [done|]. apply Hm; [done|].
  rewrite count_present_all, window_length by (done || lia). lia.
Qed.


Lemma add_moving_averages_run (data : gmap string (list float))
    (close short long : list float) (short_window long_window : Z) :
  data !! "Close" = Some close →
  rolling_mean close short_window 1 = inr short →
  rolling_mean close long_window 1 = inr long →
  add_moving_averages data short_window long_window
  = inr (<["SMA_Long" := long]> (<["SMA_Short" := short]> data)).
Proof.
  intros Hc Hs Hl. unfold add_moving_averages.
  rewrite Hc, Hs. rewrite lookup_insert_ne by done. by rewrite Hc, Hl.
Qed.

End binary64_facts.

(** ** The averages as doubles *)

Example worked_averages_on_doubles :
  binary64.rolling_mean binary64.worked_close 2 1
  = inr [10; 10; 10; 15; 20; 20; 20; 15; 10; 10]%float
  ∧ binary64.rolling_mean binary64.worked_close 4 1
    = inr [10; 10; 10; 12.5; 15; 17.5; 20; 17.5; 15; 12.5]%float
  ∧ binary64.exact_pass binary64.worked_close 2 = true
  ∧ binary64.exact_pass binary64.worked_close 4 = true
  ∧ binary64.exact_pass binary64.worked_close 3 = false.
Proof. repeat split; vm_compute; reflexivity. Qed.

Example doubles_as_rationals :
  binary64.F2Q 12.5%float = Some (7036874417766400 # 562949953421312)%Q
  ∧ binary64.F2Q (-0.75)%float
    = Some (-6755399441055744 # 9007199254740992)%Q
  ∧ binary64.F2Q nan = None
  ∧ binary64.F2Q infinity = None
  ∧ binary64.is_mean_of 15%float [10; 20]%float = true
  ∧ binary64.is_mean_of 15%float [10; 10; 20]%float = false
  ∧ binary64.is_mean_of 10%float [10; nan]%float = false
  ∧ binary64.is_mean_of_present 10%float [10; nan]%float = true.
Proof. repeat split; vm_compute; reflexivity. Qed.

Example rolling_mean_validation :
  binary64.rolling_mean [1%float] 0 1
  = inl (ValueError "min_periods must be <= window")
  ∧ binary64.rolling_mean [1%float] (-1) (-2)
    = inl (ValueError "window must be an integer 0 or greater")
  ∧ binary64.rolling_mean [1%float] (2 ^ 63) 1
    = inl (OtherError "OverflowError").
Proof. repeat split; vm_compute; reflexivity. Qed.




(** ** [generate_signals] *)

Ltac heap_lookup :=
  simpl;
  repeat (rewrite lookup_insert_eq || rewrite lookup_insert_ne by done);
  (eassumption || reflexivity).

Ltac run_load :=
  match goal with
  | |- (load ?l ≫= _) ?w = _ =>
      let H := fresh in
      eassert (heap w !! l = Some _) as H by heap_lookup;
      rewrite (bind_inr _ _ _ _ _ (load_run _ _ _ H)); clear H
  end.
Ltac run_getcol :=
  match goal with
  | |- (getcol ?l ?k ≫= _) ?w = _ =>
      let H := fresh in
      let K := fresh in
      eassert (heap w !! l = Some _) as H by heap_lookup;
      match type of H with
      | _ = Some ?d => eassert (columns d !! k = Some _) as K by heap_lookup
      end;
      rewrite (bind_inr _ _ _ _ _ (getcol_run _ _ _ _ _ H K)); clear H K
  end.
Ltac run_setcol :=
  match goal with
  | |- (setcol ?l _ _ ≫= _) ?w = _ =>
      let H := fresh in
      eassert (heap w !! l = Some _) as H by heap_lookup;
      rewrite (bind_inr _ _ _ _ _ (setcol_run _ _ _ _ _ H)); clear H;
      cbn [heap out]
  end.
Ltac run_emit := rewrite (bind_inr _ _ _ _ _ (emit_run _ _)).

Lemma alloc_run (df : DataFrame) (w : world) :
  alloc df w
  = (inr (fresh (dom (heap w))),
     World (<[fresh (dom (heap w)) := df]> (heap w)) (out w)).
Proof. done. Qed.

Lemma fresh_not_live (w : world) : heap w !! fresh (dom (heap w)) = None.
Proof. apply not_elem_of_dom, is_fresh. Qed.

Lemma fresh_ne_live (w : world) (l : loc) (df : DataFrame) :
  heap w !! l = Some df → fresh (dom (heap w)) ≠ l.
Proof.
  intros H Heq. pose proof (fresh_not_live w) as Hf.
  rewrite Heq in Hf. congruence.
Qed.

Lemma build_signals_run (w : world) (data : loc) (df : DataFrame)
    (close sma_short sma_long : list float64) :
  heap w !! data = Some df →
  columns df !! "Close" = Some close →
  columns df !! "SMA_Short" = Some sma_short →
  columns df !! "SMA_Long" = Some sma_long →
  build_signals data w
  = (inr (fresh (dom (heap w))),
     World (<[fresh (dom (heap w)) :=
                signals_frame (index df) close sma_short sma_long]> (heap w))
           (out w)).
Proof.
  intros Hd Hc Hs Hl. unfold build_signals.
  pose proof (fresh_ne_live w data df Hd) as Hne.
  set (l := fresh (dom (heap w))) in *.
  run_load. rewrite (bind_inr _ _ _ _ _ (alloc_run _ _)). fold l.
  run_getcol. run_setcol. rewrite insert_insert_eq.
  run_getcol. run_setcol. rewrite insert_insert_eq.
  run_getcol. run_setcol. rewrite insert_insert_eq.
  run_load. run_setcol. rewrite insert_insert_eq.
  run_getcol. run_getcol. run_setcol. rewrite insert_insert_eq.
  run_getcol. run_setcol. rewrite insert_insert_eq.
  rewrite ret_run. done.
Qed.

Lemma generate_signals_run (w : world) (data : loc) (df : DataFrame)
    (close sma_short sma_long : list float64) :
  heap w !! data = Some df →
  columns df !! "Close" = Some close →
  columns df !! "SMA_Short" = Some sma_short →
  columns df !! "SMA_Long" = Some sma_long →
  generates data w (fresh (dom (heap w)))
    (signals_frame (index df) close sma_short sma_long).
Proof.
  intros Hd Hc Hs Hl. split; [|split].
  - unfold main_py.generate_signals, print. run_emit.
    rewrite (bind_inr _ _ _ _ _
               (build_signals_run (World (heap w) _) _ _ _ _ _ Hd Hc Hs Hl)).
    run_emit. rewrite ret_run. simpl. by rewrite <- app_assoc.
  - unfold app_py.generate_signals. by apply build_signals_run.
  - apply fresh_not_live.
Qed.

(** ** The columns of the signals frame *)

Section SignalsFrame.
Context (idx : list date) (close sma_short sma_long : list float64).
Let sdf := signals_frame idx close sma_short sma_long.

Lemma signals_frame_index : index sdf = idx.
Proof. done. Qed.

Lemma signals_frame_price : columns sdf !! "price" = Some close.
Proof. done. Qed.

Lemma signals_frame_sma_short : columns sdf !! "SMA_Short" = Some sma_short.
Proof. done. Qed.

Lemma signals_frame_sma_long : columns sdf !! "SMA_Long" = Some sma_long.
Proof. done. Qed.

Lemma signals_frame_signal :
  columns sdf !! "signal" = Some (signal_column sma_short sma_long).
Proof. done. Qed.

Lemma signals_frame_positions :
  columns sdf !! "positions" = Some (diff (signal_column sma_short sma_long)).
Proof. done. Qed.

End SignalsFrame.

Lemma signal_column_length (s l : list float64) :
  length s = length l → length (signal_column s l) = length s.
Proof.
  intros H. unfold signal_column, np_where.
  rewrite length_fmap, length_zip_with. lia.
Qed.

Lemma signal_column_lookup (s l : list float64) (i : nat) (a b : float64) :
  s !! i = Some a → l !! i = Some b →
  signal_column s l !! i = Some (if fgt a b then f1 else f0).
Proof.
  intros Ha Hb. unfold signal_column, np_where.
  by rewrite list_lookup_fmap, lookup_zip_with, Ha, Hb.
Qed.

Lemma signal_column_flags (s l : list float64) :
  Forall flag (signal_column s l).
Proof.
  unfold signal_column, np_where. apply Forall_fmap, Forall_forall.
  intros [] _; [by right | by left].
Qed.

Lemma fgt_fin (x y : Qc) : fgt (Fin x) (Fin y) = true ↔ (y < x)%Qc.
Proof. simpl. apply bool_decide_eq_true. Qed.

Lemma fgt_irrefl (a : float64) : fgt a a = false.
Proof.
  destruct a as [q|]; [|done]. simpl. apply bool_decide_eq_false.
  intros H. by apply Qclt_not_eq in H.
Qed.

Lemma f1_ne_f0 : f1 ≠ f0.
Proof. unfold f1, f0. intros H. by injection H. Qed.

Lemma diff_length (c : list float64) : length (diff c) = length c.
Proof.
  destruct c as [|x c]; [done|]. simpl. f_equal.
  rewrite length_zip_with. simpl. lia.
Qed.

Lemma diff_lookup_0 (c : list float64) : c ≠ [] → diff c !! 0%nat = Some NaN.
Proof. by destruct c. Qed.

Lemma diff_lookup_S (c : list float64) (i : nat) (x y : float64) :
  c !! i = Some y → c !! S i = Some x → diff c !! S i = Some (fsub x y).
Proof.
  intros Hy Hx. destruct c as [|z c]; [done|]. simpl in *.
  by rewrite lookup_zip_with, Hx, Hy.
Qed.

Lemma fsub_flags (x y : float64) :
  flag x → flag y → fsub x y = fm1 ∨ fsub x y = f0 ∨ fsub x y = f1.
Proof.
  unfold flag, f0, f1, fm1. intros [-> | ->] [-> | ->]; simpl.
  - right; left. f_equal; ring.
  - left. f_equal; ring.
  - right; right. f_equal; ring.
  - right; left. f_equal; ring.
Qed.

(** C2. On an indicated series [generate_signals] returns a frame whose
    [signal] column holds, at every row, 1.0 when [SMA_Short] is strictly
    above [SMA_Long] and 0.0 otherwise: the value is 0.0 or 1.0, and equal
    averages give 0.0. *)
Theorem C2_signal_is_strict_comparison
    (w : world) (data : loc) (df : DataFrame)
    (close sma_short sma_long : list float64) :
  heap w !! data = Some df →
  indicated df close sma_short sma_long →
  ∃ (signals : loc) (sdf : DataFrame) (signal : list float64),
    generates data w signals sdf
    ∧ columns sdf !! "signal" = Some signal
    ∧ length signal = length (index df)
    ∧ ∀ i : nat, (i < length (index df))%nat →
        ∃ a b v : float64,
          sma_short !! i = Some a ∧ sma_long !! i = Some b
          ∧ signal !! i = Some v
          ∧ v = (if fgt a b then f1 else f0)
          ∧ flag v
          ∧ (v = f1 ↔ fgt a b = true)
          ∧ (a = b → v = f0)
          ∧ (∀ x y : Qc, a = Fin x → b = Fin y → (v = f1 ↔ (y < x)%Qc)).
Proof.
  intros Hd (Hc & Hs & Hl & Lc & Ls & Ll).
  eexists _, _, _. split; [by eapply generate_signals_run|].
  split; [apply signals_frame_signal|].
  split; [rewrite signal_column_length; congruence|].
  intros i Hi.
  destruct (lookup_lt_is_Some_2 sma_short i) as [a Ha]; [lia|].
  destruct (lookup_lt_is_Some_2 sma_long i) as [b Hb]; [lia|].
  exists a, b, (if fgt a b then f1 else f0).
  split; [done|]. split; [done|].
  split; [by apply signal_column_lookup|]. split; [done|].
  assert ((if fgt a b then f1 else f0) = f1 ↔ fgt a b = true) as Hiff.
  { destruct (fgt a b); split; done. }
  split; [destruct (fgt a b); [by right | by left]|].
  split; [done|]. split.
  - intros ->. by rewrite fgt_irrefl.
  - intros x y -> ->. by rewrite Hiff, fgt_fin.
Qed.

Lemma C2_witness :
  ∃ (signals : loc) (sdf : DataFrame) (signal : list float64),
    generates 1%positive example_world signals sdf
    ∧ columns sdf !! "signal" = Some signal
    ∧ length signal = length (index example_indicated)
    ∧ ∀ i : nat, (i < length (index example_indicated))%nat →
        ∃ a b v : float64,
          example_short !! i = Some a ∧ example_long !! i = Some b
          ∧ signal !! i = Some v
          ∧ v = (if fgt a b then f1 else f0)
          ∧ flag v
          ∧ (v = f1 ↔ fgt a b = true)
          ∧ (a = b → v = f0)
          ∧ (∀ x y : Qc, a = Fin x → b = Fin y → (v = f1 ↔ (y < x)%Qc)).
Proof.
  apply (C2_signal_is_strict_comparison example_world 1%positive
           example_indicated (Fin <$> example_close) example_short example_long).
  - reflexivity.
  - repeat split; reflexivity.
Defined.

(** C5. On an indicated series the [positions] column of the frame
    returned by [generate_signals] satisfies
    [positions[i] = signal[i] - signal[i-1]] at every row [i ≥ 1]: the
    two signals are numbers [a] and [b] and the position is the number
    [a - b], a value among -1.0, 0.0 and 1.0; the first row holds NaN,
    which compares unequal to 0.0 (and to 1.0 and -1.0). *)
Theorem C5_positions_are_first_differences
    (w : world) (data : loc) (df : DataFrame)
    (close sma_short sma_long : list float64) :
  heap w !! data = Some df →
  indicated df close sma_short sma_long →
  ∃ (signals : loc) (sdf : DataFrame) (signal positions : list float64),
    generates data w signals sdf
    ∧ columns sdf !! "signal" = Some signal
    ∧ columns sdf !! "positions" = Some positions
    ∧ length positions = length (index df)
    ∧ ((0 < length (index df))%nat →
         ∃ p0 : float64,
           positions !! 0%nat = Some p0 ∧ p0 = NaN ∧ p0 ≠ f0
           ∧ feq p0 f0 = false ∧ feq p0 f1 = false ∧ feq p0 fm1 = false)
    ∧ ∀ i : nat, (S i < length (index df))%nat →
        ∃ (x y p : float64) (a b : Qc),
          signal !! S i = Some x ∧ signal !! i = Some y
          ∧ positions !! S i = Some p
          ∧ x = Fin a ∧ y = Fin b ∧ p = Fin (a - b)%Qc
          ∧ p = fsub x y
          ∧ (p = fm1 ∨ p = f0 ∨ p = f1).
Proof.
  intros Hd (Hc & Hs & Hl & Lc & Ls & Ll).
  eexists _, _, _, _. split; [by eapply generate_signals_run|].
  split; [apply signals_frame_signal|].
  split; [apply signals_frame_positions|].
  assert (length (signal_column sma_short sma_long) = length (index df)) as Lg
    by (rewrite signal_column_length; congruence).
  split; [by rewrite diff_length|]. split.
  - intros Hn. exists NaN. split; [|done].
    apply diff_lookup_0. intros E. rewrite E in Lg. simpl in Lg. lia.
  - intros i Hi.
    destruct (lookup_lt_is_Some_2 (signal_column sma_short sma_long) (S i))
      as [x Hx]; [lia|].
    destruct (lookup_lt_is_Some_2 (signal_column sma_short sma_long) i)
      as [y Hy]; [lia|].
    pose proof (signal_column_flags sma_short sma_long) as Hf.
    rewrite Forall_lookup in Hf.
    pose proof (Hf _ _ Hx) as Fx. pose proof (Hf _ _ Hy) as Fy.
    assert (∃ a : Qc, x = Fin a) as [a Ea]
      by (destruct Fx as [-> | ->]; by eexists).
    assert (∃ b : Qc, y = Fin b) as [b Eb]
      by (destruct Fy as [-> | ->]; by eexists).
    exists x, y, (fsub x y), a, b. split; [done|]. split; [done|].
    split; [by apply diff_lookup_S|]. split; [done|]. split; [done|].
    split; [by rewrite Ea, Eb|]. split; [done|].
    by apply fsub_flags.
Qed.

Lemma C5_witness :
  ∃ (signals : loc) (sdf : DataFrame) (signal positions : list float64),
    generates 1%positive example_world signals sdf
    ∧ columns sdf !! "signal" = Some signal
    ∧ columns sdf !! "positions" = Some positions
    ∧ length positions = length (index example_indicated)
    ∧ ((0 < length (index example_indicated))%nat →
         ∃ p0 : float64,
           positions !! 0%nat = Some p0 ∧ p0 = NaN ∧ p0 ≠ f0
           ∧ feq p0 f0 = false ∧ feq p0 f1 = false ∧ feq p0 fm1 = false)
    ∧ ∀ i : nat, (S i < length (index example_indicated))%nat →
        ∃ (x y p : float64) (a b : Qc),
          signal !! S i = Some x ∧ signal !! i = Some y
          ∧ positions !! S i = Some p
          ∧ x = Fin a ∧ y = Fin b ∧ p = Fin (a - b)%Qc
          ∧ p = fsub x y
          ∧ (p = fm1 ∨ p = f0 ∨ p = f1).
Proof.
  apply (C5_positions_are_first_differences example_world 1%positive
           example_indicated (Fin <$> example_close) example_short example_long).
  - reflexivity.
  - repeat split; reflexivity.
Defined.

Lemma signals_frame_wf (idx : list date) (close sma_short sma_long : list float64) :
  length close = length idx → length sma_short = length idx →
  length sma_long = length idx →
  wf_frame (signals_frame idx close sma_short sma_long).
Proof.
  intros Lc Ls Ll k c. unfold signals_frame, assign. simpl.
  assert (length (signal_column sma_short sma_long) = length idx) as Lg
    by (rewrite signal_column_length; congruence).
  intros Hk. rewrite !lookup_insert in Hk.
  repeat case_decide; simplify_eq;
    rewrite ?diff_length, ?length_replicate; done.
Qed.

(** C10. On an indicated series [generate_signals] returns a new frame
    with the index of its input, whose [price] column is the input's
    [Close] and whose [SMA_Short] and [SMA_Long] columns are the input's,
    every column as long as the index; the input frame, and every other
    object of the store, is as before the call. *)
Theorem C10_generate_copies_and_preserves_input
    (w : world) (data : loc) (df : DataFrame)
    (close sma_short sma_long : list float64) :
  heap w !! data = Some df →
  indicated df close sma_short sma_long →
  ∃ (signals : loc) (sdf : DataFrame) (w' : world),
    app_py.generate_signals data w = (inr signals, w')
    ∧ main_py.generate_signals data w
      = (inr signals,
         World (heap w') (out w ++ [Print Generating; Print Generated]))
    ∧ signals ≠ data
    ∧ heap w' !! signals = Some sdf
    ∧ heap w' !! data = Some df
    ∧ (∀ l : loc, l ≠ signals → heap w' !! l = heap w !! l)
    ∧ index sdf = index df
    ∧ wf_frame sdf
    ∧ columns sdf !! "price" = Some close
    ∧ columns sdf !! "SMA_Short" = Some sma_short
    ∧ columns sdf !! "SMA_Long" = Some sma_long
    ∧ ∀ i : nat, (i < length (index df))%nat →
        ∃ c a b : float64,
          close !! i = Some c ∧ sma_short !! i = Some a
          ∧ sma_long !! i = Some b
          ∧ columns sdf !! "price" ≫= (.!! i) = Some c
          ∧ columns sdf !! "SMA_Short" ≫= (.!! i) = Some a
          ∧ columns sdf !! "SMA_Long" ≫= (.!! i) = Some b.
Proof.
  intros Hd (Hc & Hs & Hl & Lc & Ls & Ll).
  destruct (generate_signals_run w data df close sma_short sma_long
              Hd Hc Hs Hl) as (Hmain & Happ & Hfresh).
  pose proof (fresh_ne_live w data df Hd) as Hne.
  eexists _, _, _. split; [exact Happ|]. split; [exact Hmain|].
  split; [done|]. simpl.
  split; [apply lookup_insert_eq|].
  split; [by rewrite lookup_insert_ne|].
  split; [by intros l Hl'; rewrite lookup_insert_ne|].
  split; [done|]. split; [by apply signals_frame_wf|].
  split; [done|]. split; [done|]. split; [done|].
  intros i Hi.
  destruct (lookup_lt_is_Some_2 close i) as [c Hci]; [lia|].
  destruct (lookup_lt_is_Some_2 sma_short i) as [a Ha]; [lia|].
  destruct (lookup_lt_is_Some_2 sma_long i) as [b Hb]; [lia|].
  exists c, a, b. rewrite signals_frame_price, signals_frame_sma_short,
    signals_frame_sma_long. simpl. done.
Qed.

Lemma C10_witness :
  ∃ (signals : loc) (sdf : DataFrame) (w' : world),
    app_py.generate_signals 1%positive example_world = (inr signals, w')
    ∧ main_py.generate_signals 1%positive example_world
      = (inr signals,
         World (heap w')
               (out example_world ++ [Print Generating; Print Generated]))
    ∧ signals ≠ 1%positive
    ∧ heap w' !! signals = Some sdf
    ∧ heap w' !! 1%positive = Some example_indicated
    ∧ (∀ l : loc, l ≠ signals → heap w' !! l = heap example_world !! l)
    ∧ index sdf = index example_indicated
    ∧ wf_frame sdf
    ∧ columns sdf !! "price" = Some (Fin <$> example_close)
    ∧ columns sdf !! "SMA_Short" = Some example_short
    ∧ columns sdf !! "SMA_Long" = Some example_long
    ∧ ∀ i : nat, (i < length (index example_indicated))%nat →
        ∃ c a b : float64,
          (Fin <$> example_close) !! i = Some c ∧ example_short !! i = Some a
          ∧ example_long !! i = Some b
          ∧ columns sdf !! "price" ≫= (.!! i) = Some c
          ∧ columns sdf !! "SMA_Short" ≫= (.!! i) = Some a
          ∧ columns sdf !! "SMA_Long" ≫= (.!! i) = Some b.
Proof.
  apply (C10_generate_copies_and_preserves_input example_world 1%positive
           example_indicated (Fin <$> example_close) example_short example_long).
  - reflexivity.
  - repeat split; reflexivity.
Defined.

(** ** What [add_moving_averages] does to the store, in every case *)

Lemma assign_moving_averages_cases (w : world) (data : loc) (df : DataFrame)
    (short_window long_window : Z) :
  heap w !! data = Some df →
  assign_moving_averages data short_window long_window w
  = match columns df !! "Close" with
    | None => (inl (KeyError "Close"), w)
    | Some close =>
        match rolling_mean close short_window 1 with
        | inl e => (inl e, w)
        | inr short =>
            match rolling_mean close long_window 1 with
            | inl e =>
                (inl e,
                 World (<[data := assign "SMA_Short" short df]> (heap w))
                       (out w))
            | inr long =>
                (inr tt,
                 World (<[data := with_moving_averages df short long]> (heap w))
                       (out w))
            end
        end
    end.
Proof.
  intros Hd. destruct (columns df !! "Close") as [close|] eqn:Hc.
  2: { unfold assign_moving_averages.
       by rewrite (bind_inl _ _ _ _ _ (getcol_missing _ _ _ _ Hd Hc)). }
  destruct (rolling_mean close short_window 1) as [e|short] eqn:Hs.
  { unfold assign_moving_averages.
    rewrite (bind_inr _ _ _ _ _ (getcol_run _ _ _ _ _ Hd Hc)).
    by rewrite Hs. }
  destruct (rolling_mean close long_window 1) as [e|long] eqn:Hl.
  2: by apply assign_moving_averages_run with close.
  unfold assign_moving_averages.
  rewrite (bind_inr _ _ _ _ _ (getcol_run _ _ _ _ _ Hd Hc)).
  rewrite Hs. cbn [lift]. rewrite (bind_inr _ _ _ _ _ (ret_run _ _)).
  run_setcol. run_getcol. by rewrite Hl.
Qed.

Lemma C9_counterexample :
  ¬ input_unchanged app_py.add_moving_averages 1%positive 2 4 example_fetched
  ∧ ¬ input_unchanged main_py.add_moving_averages 1%positive 2 4 example_fetched.
Proof.
  split; intros H; specialize (H _ _ eq_refl);
    apply (f_equal (λ o : option DataFrame,
                      match o ≫= λ df, columns df !! "SMA_Short" with
                      | Some _ => true
                      | None => false
                      end)) in H;
    vm_compute in H; discriminate.
Qed.

Lemma app_add_moving_averages_unfold (w : world) (data : loc) (s l : Z) :
  app_py.add_moving_averages data s l w
  = match assign_moving_averages data s l w with
    | (inl e, w') => (inl e, w')
    | (inr _, w') => (inr data, w')
    end.
Proof. done. Qed.

Lemma main_add_moving_averages_unfold (w : world) (data : loc) (s l : Z) :
  main_py.add_moving_averages data s l w
  = match assign_moving_averages data s l
            (World (heap w) (out w ++ [Print (Calculating s l)])) with
    | (inl e, w') => (inl e, w')
    | (inr _, w') =>
        (inr data, World (heap w') (out w' ++ [Print Calculated]))
    end.
Proof.
  unfold main_py.add_moving_averages, print. run_emit.
  unfold mbind at 1, M_bind, bind. by destruct (assign_moving_averages _ _ _ _) as [[|[]] ?].
Qed.

(** C9 (amended). [add_moving_averages] works in place: it returns the
    reference it was given, and in the frame behind it writes the columns
    [SMA_Short] and [SMA_Long] and nothing else. The index, [Close] and
    every other column are unchanged, as is every other object of the
    store; the two columns written are the rolling means of [Close] and
    depend on nothing but [Close] and the windows. [main.py] and [app.py]
    leave the same store. *)
Theorem C9_only_the_average_columns_are_written
    (w : world) (data : loc) (df : DataFrame) (short_window long_window : Z) :
  heap w !! data = Some df →
  let res_app := app_py.add_moving_averages data short_window long_window w in
  let res_main := main_py.add_moving_averages data short_window long_window w in
  res_main.1 = res_app.1
  ∧ heap res_main.2 = heap res_app.2
  ∧ out res_app.2 = out w
  ∧ ∃ df' : DataFrame,
      heap res_app.2 = <[data := df']> (heap w)
      ∧ index df' = index df
      ∧ (∀ k : string, k ≠ "SMA_Short" → k ≠ "SMA_Long" →
           columns df' !! k = columns df !! k)
      ∧ ∀ r : loc, res_app.1 = inr r →
          r = data
          ∧ ∃ close short long : list float64,
              columns df !! "Close" = Some close
              ∧ rolling_mean close short_window 1 = inr short
              ∧ rolling_mean close long_window 1 = inr long
              ∧ df' = with_moving_averages df short long.
Proof.
  intros Hd res_app res_main. subst res_app res_main.
  rewrite app_add_moving_averages_unfold, main_add_moving_averages_unfold.
  rewrite (assign_moving_averages_cases (World (heap w) _) data df _ _ Hd).
  rewrite (assign_moving_averages_cases w data df _ _ Hd).
  destruct (columns df !! "Close") as [close|] eqn:Hc.
  2: { simpl. repeat split. exists df.
       split; [by rewrite insert_id|]. by repeat split. }
  destruct (rolling_mean close short_window 1) as [e|short] eqn:Hs.
  { simpl. repeat split. exists df.
    split; [by rewrite insert_id|]. by repeat split. }
  destruct (rolling_mean close long_window 1) as [e|long] eqn:Hl.
  - simpl. repeat split. eexists. split; [done|]. split; [done|].
    split; [|done]. intros k H1 H2. simpl. by rewrite lookup_insert_ne.
  - simpl. repeat split. eexists. split; [done|]. split; [done|]. split.
    + intros k H1 H2. simpl. by rewrite !lookup_insert_ne.
    + intros r [= <-]. split; [done|]. by exists close, short, long.
Qed.

Lemma C9_witness :
  let res_app := app_py.add_moving_averages 1%positive 2 4 example_fetched in
  let res_main := main_py.add_moving_averages 1%positive 2 4 example_fetched in
  res_main.1 = res_app.1
  ∧ heap res_main.2 = heap res_app.2
  ∧ out res_app.2 = out example_fetched
  ∧ ∃ df' : DataFrame,
      heap res_app.2 = <[1%positive := df']> (heap example_fetched)
      ∧ index df' = index example_prices
      ∧ (∀ k : string, k ≠ "SMA_Short" → k ≠ "SMA_Long" →
           columns df' !! k = columns example_prices !! k)
      ∧ ∀ r : loc, res_app.1 = inr r →
          r = 1%positive
          ∧ ∃ close short long : list float64,
              columns example_prices !! "Close" = Some close
              ∧ rolling_mean close 2 1 = inr short
              ∧ rolling_mean close 4 1 = inr long
              ∧ df' = with_moving_averages example_prices short long.
Proof.
  apply (C9_only_the_average_columns_are_written example_fetched 1%positive
           example_prices 2 4).
  reflexivity.
Defined.

(** ** Configuration and fetch failures *)

Section Provider.
Variable yf_download : string → string → string → download_result.

(** C3. When [long_window <= short_window] the script of [app.py] shows
    the error in the sidebar and does nothing else: whatever the provider
    would return, [yf.download] is not called, the store is untouched and
    no chart or table is produced. The windows of [main.py] are the
    constants 40 and 100, which are not such a configuration. *)
Theorem C3_long_not_above_short_is_rejected
    (ticker start_date end_date : string) (short_window long_window : Z)
    (w : world) :
  long_window ≤ short_window →
  app_py.script yf_download ticker start_date end_date
    short_window long_window w
  = (inr tt,
     World (heap w) (out w ++ [StSidebarError LongMustExceedShort]))
  ∧ main_py.SHORT_WINDOW < main_py.LONG_WINDOW.
Proof.
  intros H. split; [|done]. unfold app_py.script.
  by destruct (Z.leb_spec long_window short_window); [|lia].
Qed.

Lemma main_fetch_data_unavailable (ticker start end_ : string) (w : world) :
  unavailable (yf_download ticker start end_) →
  main_py.fetch_data yf_download ticker start end_ w
  = (inr None,
     World (heap w)
           (out w ++ [Print (Fetching ticker start end_);
                      YfDownload ticker start end_;
                      Print (failure_text ticker
                               (yf_download ticker start end_))])).
Proof.
  intros H. unfold main_py.fetch_data, print. do 2 run_emit. simpl.
  destruct (yf_download ticker start end_) as [e|df]; simpl in *.
  - run_emit. rewrite ret_run. simpl. by rewrite <- !app_assoc.
  - rewrite H. run_emit. rewrite ret_run. simpl. by rewrite <- !app_assoc.
Qed.

Lemma app_fetch_data_unavailable (ticker start end_ : string) (w : world) :
  unavailable (yf_download ticker start end_) →
  app_py.fetch_data yf_download ticker start end_ w
  = (inr None,
     World (heap w)
           (out w ++ [YfDownload ticker start end_;
                      StError (failure_text ticker
                                 (yf_download ticker start end_))])).
Proof.
  intros H. unfold app_py.fetch_data. run_emit. simpl.
  destruct (yf_download ticker start end_) as [e|df]; simpl in *.
  - run_emit. rewrite ret_run. simpl. by rewrite <- !app_assoc.
  - rewrite H. run_emit. rewrite ret_run. simpl. by rewrite <- !app_assoc.
Qed.

(** C7. When the provider raises or returns an empty frame for the
    request made, [fetch_data] shows one message and returns [None], and
    the run stops there: in [main.py], whose request is the constant
    one, [run_strategy] returns; in [app.py], whose request is the one
    entered and is made once the windows are accepted, the script ends.
    The store is untouched (no moving average, no signals frame) and
    nothing but the message follows the download in the trace; an
    exception and an empty frame differ only in the text shown. *)
Theorem C7_unavailable_data_halts_the_run
    (ticker start_date end_date : string) (short_window long_window : Z)
    (w : world) :
  (unavailable
     (yf_download main_py.TICKER main_py.START_DATE main_py.END_DATE) →
   main_py.run_strategy yf_download w
   = (inr tt,
      World (heap w)
        (out w ++
         [Print (Fetching main_py.TICKER main_py.START_DATE main_py.END_DATE);
          YfDownload main_py.TICKER main_py.START_DATE main_py.END_DATE;
          Print (failure_text main_py.TICKER
                   (yf_download main_py.TICKER main_py.START_DATE
                      main_py.END_DATE))])))
  ∧ (short_window < long_window →
     unavailable (yf_download ticker start_date end_date) →
     app_py.script yf_download ticker start_date end_date
       short_window long_window w
     = (inr tt,
        World (heap w)
          (out w ++
           [YfDownload ticker start_date end_date;
            StError (failure_text ticker
                       (yf_download ticker start_date end_date))]))).
Proof.
  split.
  - intros Hmain. unfold main_py.run_strategy.
    by rewrite (bind_inr _ _ _ _ _ (main_fetch_data_unavailable _ _ _ _ Hmain)).
  - intros Hw Happ. unfold app_py.script.
    destruct (Z.leb_spec long_window short_window); [lia|].
    by rewrite (bind_inr _ _ _ _ _ (app_fetch_data_unavailable _ _ _ _ Happ)).
Qed.

End Provider.

Lemma C3_witness :
  app_py.script example_outage "AAPL" "2022-01-01" "2023-01-01" 100 40
    example_fetched
  = (inr tt,
     World (heap example_fetched)
           (out example_fetched ++ [StSidebarError LongMustExceedShort]))
  ∧ main_py.SHORT_WINDOW < main_py.LONG_WINDOW.
Proof.
  apply (C3_long_not_above_short_is_rejected example_outage
           "AAPL" "2022-01-01" "2023-01-01" 100 40 example_fetched).
  lia.
Defined.

Lemma C7_witness :
  main_py.run_strategy example_outage example_fetched
  = (inr tt,
     World (heap example_fetched)
       (out example_fetched ++
        [Print (Fetching "AAPL" "2022-01-01" "2023-01-01");
         YfDownload "AAPL" "2022-01-01" "2023-01-01";
         Print (FetchFailed "timed out")]))
  ∧ app_py.script example_aapl_only "MSFT" "2022-01-01" "2023-01-01" 40 100
      example_fetched
    = (inr tt,
       World (heap example_fetched)
         (out example_fetched ++
          [YfDownload "MSFT" "2022-01-01" "2023-01-01";
           StError (NoDataFound "MSFT")])).
Proof.
  split.
  - apply (proj1 (C7_unavailable_data_halts_the_run example_outage
                    "MSFT" "2022-01-01" "2023-01-01" 40 100 example_fetched)).
    exact I.
  - apply (proj2 (C7_unavailable_data_halts_the_run example_aapl_only
                    "MSFT" "2022-01-01" "2023-01-01" 40 100 example_fetched)).
    + lia.
    + reflexivity.
Defined.

(** ** [execute_trades] *)

Lemma execute_trades_unfold (signals : loc) :
  main_py.execute_trades signals
  = (print Executing;;
     df ← load signals;
     for_each (iterrows df) trade_body;;
     print Complete).
Proof. done. Qed.

Lemma feq_fin (a : float64) (q : Qc) : feq a (Fin q) = true ↔ a = Fin q.
Proof.
  destruct a as [x|]; simpl; [|done].
  rewrite bool_decide_eq_true. split; [by intros -> | by intros [= ->]].
Qed.

Lemma feq_fin_false (a : float64) (q : Qc) : feq a (Fin q) = false ↔ a ≠ Fin q.
Proof. rewrite <- feq_fin. by destruct (feq a (Fin q)). Qed.

Lemma row_get_run (row : gmap string float64) (k : string) (v : float64)
    (w : world) :
  row !! k = Some v → row_get row k w = (inr v, w).
Proof. intros H. unfold row_get. by rewrite H. Qed.

Lemma trade_body_run (d : date) (row : gmap string float64)
    (p price : float64) (w : world) :
  row !! "positions" = Some p → row !! "price" = Some price →
  trade_body (d, row) w
  = (inr tt, World (heap w) (out w ++ row_prints d p price)).
Proof.
  intros Hp Hpr. unfold trade_body, row_prints, print.
  rewrite (bind_inr _ _ _ _ _ (row_get_run _ _ _ _ Hp)).
  destruct (feq p f1).
  { by rewrite (bind_inr _ _ _ _ _ (row_get_run _ _ _ _ Hpr)). }
  rewrite (bind_inr _ _ _ _ _ (row_get_run _ _ _ _ Hp)).
  destruct (feq p fm1).
  { by rewrite (bind_inr _ _ _ _ _ (row_get_run _ _ _ _ Hpr)). }
  rewrite ret_run. destruct w. simpl. by rewrite app_nil_r.
Qed.

Lemma row_at_lookup (df : DataFrame) (k : string) (c : list float64)
    (i : nat) (v : float64) :
  columns df !! k = Some c → c !! i = Some v → row_at df i !! k = Some v.
Proof. intros Hk Hv. unfold row_at. by rewrite lookup_omap, Hk. Qed.

Lemma for_each_rows (df : DataFrame) (positions price : list float64)
    (idx : list date) (k : nat) (w : world) :
  columns df !! "positions" = Some positions →
  columns df !! "price" = Some price →
  (k + length idx ≤ length positions)%nat →
  (k + length idx ≤ length price)%nat →
  for_each (imap (λ i d, (d, row_at df (k + i))) idx) trade_body w
  = (inr tt,
     World (heap w)
           (out w ++ concat (trade_rows idx (drop k positions) (drop k price)))).
Proof.
  intros Hp Hpr. revert k w.
  induction idx as [|d idx IH]; intros k w Lp Lpr.
  { destruct w. simpl. by rewrite app_nil_r. }
  simpl in Lp, Lpr.
  destruct (lookup_lt_is_Some_2 positions k) as [p Hpk]; [lia|].
  destruct (lookup_lt_is_Some_2 price k) as [pr Hprk]; [lia|].
  rewrite (drop_S _ _ _ Hpk), (drop_S _ _ _ Hprk).
  cbn [imap for_each]. rewrite Nat.add_0_r.
  erewrite (bind_inr _ _ _ _ _ (trade_body_run d _ p pr w _ _)).
  - rewrite (imap_ext _ (λ i d, (d, row_at df (S k + i)))).
    2: { intros i x _. simpl. do 2 f_equal. lia. }
    rewrite IH by lia. simpl. by rewrite <- app_assoc.
  Unshelve. all: by eapply row_at_lookup.
Qed.

Lemma execute_trades_run (w : world) (signals : loc) (sdf : DataFrame)
    (positions price : list float64) :
  heap w !! signals = Some sdf →
  columns sdf !! "positions" = Some positions →
  columns sdf !! "price" = Some price →
  length positions = length (index sdf) →
  length price = length (index sdf) →
  main_py.execute_trades signals w
  = (inr tt,
     World (heap w)
           (out w ++ [Print Executing]
                  ++ concat (trade_rows (index sdf) positions price)
                  ++ [Print Complete])).
Proof.
  intros Hs Hp Hpr Lp Lpr. rewrite execute_trades_unfold. unfold print.
  run_emit.
  rewrite (bind_inr _ _ _ _ _ (load_run signals sdf (World (heap w) _) Hs)).
  unfold iterrows.
  rewrite (bind_inr _ _ _ _ _
             (for_each_rows sdf positions price (index sdf) 0 _ Hp Hpr
                ltac:(simpl; lia) ltac:(simpl; lia))).
  rewrite emit_run. simpl. by rewrite <- !app_assoc.
Qed.

Lemma trade_rows_length (idx : list date) (positions price : list float64) :
  length positions = length idx → length price = length idx →
  length (trade_rows idx positions price) = length idx.
Proof.
  intros Lp Lpr. unfold trade_rows.
  rewrite length_zip_with, length_zip. lia.
Qed.

Lemma trade_rows_lookup (idx : list date) (positions price : list float64)
    (i : nat) (d : date) (p pr : float64) :
  idx !! i = Some d → positions !! i = Some p → price !! i = Some pr →
  trade_rows idx positions price !! i = Some (row_prints d p pr).
Proof.
  intros Hd Hp Hpr. unfold trade_rows.
  rewrite lookup_zip_with, Hd. simpl.
  assert (zip positions price !! i = Some (p, pr)) as ->
    by by apply lookup_zip_Some.
  done.
Qed.

Lemma f1_ne_fm1 : f1 ≠ fm1.
Proof. unfold f1, fm1. intros H. by injection H. Qed.

Lemma row_prints_buy (d : date) (p pr : float64) :
  row_prints d p pr = [Print (BuyAt d pr)] ↔ p = f1.
Proof.
  unfold row_prints. destruct (feq p f1) eqn:E1.
  - apply feq_fin in E1. by split.
  - apply feq_fin_false in E1. destruct (feq p fm1); split; done.
Qed.

Lemma row_prints_sell (d : date) (p pr : float64) :
  row_prints d p pr = [Print (SellAt d pr)] ↔ p = fm1.
Proof.
  unfold row_prints. destruct (feq p f1) eqn:E1.
  - apply feq_fin in E1. split; [done|]. intros ->. by destruct f1_ne_fm1.
  - destruct (feq p fm1) eqn:E2.
    + apply feq_fin in E2. by split.
    + apply feq_fin_false in E2. by split.
Qed.

Lemma row_prints_none (d : date) (p pr : float64) :
  row_prints d p pr = [] ↔ p ≠ f1 ∧ p ≠ fm1.
Proof.
  unfold row_prints. destruct (feq p f1) eqn:E1.
  - apply feq_fin in E1. split; [done|]. by intros [? _].
  - apply feq_fin_false in E1. destruct (feq p fm1) eqn:E2.
    + apply feq_fin in E2. split; [done|]. by intros [_ ?].
    + apply feq_fin_false in E2. by split.
Qed.

Lemma fsub_flags_up (x y : float64) :
  flag x → flag y → (fsub x y = f1 ↔ x = f1 ∧ y = f0).
Proof.
  unfold flag, f0, f1. intros [-> | ->] [-> | ->]; simpl; split;
    try (intros [? ?]); done.
Qed.

Lemma fsub_flags_down (x y : float64) :
  flag x → flag y → (fsub x y = fm1 ↔ x = f0 ∧ y = f1).
Proof.
  unfold flag, f0, f1, fm1. intros [-> | ->] [-> | ->]; simpl; split;
    try (intros [? ?]); done.
Qed.

Lemma diff_flags_lookup (sig : list float64) (i : nat) (p : float64) :
  Forall flag sig → diff sig !! i = Some p →
  (p = f1 ↔ ∃ j : nat, i = S j ∧ sig !! j = Some f0 ∧ sig !! i = Some f1)
  ∧ (p = fm1 ↔ ∃ j : nat, i = S j ∧ sig !! j = Some f1 ∧ sig !! i = Some f0)
  ∧ (i = 0%nat → p = NaN).
Proof.
  intros Hf Hp. rewrite Forall_lookup in Hf.
  destruct i as [|j].
  - destruct sig; [done|]. simpl in Hp. injection Hp as <-.
    split; [|split]; [split; [done | by intros (? & ? & _)]..|done].
  - assert (S j < length sig)%nat as Hlt
      by (rewrite <- diff_length; by eapply lookup_lt_Some).
    destruct (lookup_lt_is_Some_2 sig (S j)) as [x Hx]; [lia|].
    destruct (lookup_lt_is_Some_2 sig j) as [y Hy]; [lia|].
    rewrite (diff_lookup_S sig j x y Hy Hx) in Hp. injection Hp as <-.
    pose proof (Hf _ _ Hx) as Fx. pose proof (Hf _ _ Hy) as Fy.
    split; [|split]; [| |done].
    + rewrite (fsub_flags_up x y Fx Fy). split.
      * intros [-> ->]. by exists j.
      * intros (j' & [= <-] & Hy' & Hx'). split; congruence.
    + rewrite (fsub_flags_down x y Fx Fy). split.
      * intros [-> ->]. by exists j.
      * intros (j' & [= <-] & Hy' & Hx'). split; congruence.
Qed.

Lemma trade_log_prints (sdf : DataFrame) (positions price : list float64) :
  length positions = length (index sdf) →
  length price = length (index sdf) →
  log_prints (app_py.trade_log sdf positions price)
  = concat (trade_rows (index sdf) positions price).
Proof.
  destruct sdf as [idx cols]. unfold app_py.trade_log, log_prints. simpl.
  revert positions price.
  induction idx as [|d idx IH]; intros [|p ps] [|pr prs] Lp Lpr;
    simplify_eq/=; [done|].
  unfold trade_rows in *. simpl. unfold row_prints at 1.
  destruct (feq p f1) eqn:E1; simpl.
  { rewrite E1. f_equal. by apply IH. }
  rewrite orb_false_r. destruct (feq p fm1) eqn:E2; simpl.
  { rewrite E1. f_equal. by apply IH. }
  by apply IH.
Qed.

(** C4. After [generate_signals] on an indicated series, the loop of
    [execute_trades] prints, for row [i], a BUY line exactly when
    [positions[i] == 1.0], that is when [i ≥ 1] and the signal goes from 0
    to 1 there, a SELL line exactly when [positions[i] == -1.0], that is
    when the signal goes from 1 to 0, and nothing for any other row, the
    first one included. The trade log of [app.py] has the same rows. *)
Theorem C4_events_fire_exactly_at_crossovers
    (w : world) (data : loc) (df : DataFrame)
    (close sma_short sma_long : list float64) :
  heap w !! data = Some df →
  indicated df close sma_short sma_long →
  ∃ (signals : loc) (sdf : DataFrame) (w1 : world)
    (signal positions : list float64) (rows : list (list event)),
    main_py.generate_signals data w = (inr signals, w1)
    ∧ heap w1 !! signals = Some sdf
    ∧ columns sdf !! "signal" = Some signal
    ∧ columns sdf !! "positions" = Some positions
    ∧ main_py.execute_trades signals w1
      = (inr tt,
         World (heap w1)
               (out w1 ++ [Print Executing] ++ concat rows ++ [Print Complete]))
    ∧ log_prints (app_py.trade_log sdf positions close) = concat rows
    ∧ length rows = length (index df)
    ∧ ∀ (i : nat) (d : date) (pr : float64),
        index df !! i = Some d → close !! i = Some pr →
        ∃ (p : float64) (row : list event),
          positions !! i = Some p ∧ rows !! i = Some row
          ∧ (row = [Print (BuyAt d pr)] ↔ p = f1)
          ∧ (p = f1 ↔ ∃ j : nat, i = S j ∧ signal !! j = Some f0
                                 ∧ signal !! i = Some f1)
          ∧ (row = [Print (SellAt d pr)] ↔ p = fm1)
          ∧ (p = fm1 ↔ ∃ j : nat, i = S j ∧ signal !! j = Some f1
                                  ∧ signal !! i = Some f0)
          ∧ (row = [] ↔ p ≠ f1 ∧ p ≠ fm1)
          ∧ (i = 0%nat → p = NaN ∧ row = []).
Proof.
  intros Hd (Hc & Hs & Hl & Lc & Ls & Ll).
  destruct (generate_signals_run w data df close sma_short sma_long
              Hd Hc Hs Hl) as (Hmain & _ & _).
  set (sig := signal_column sma_short sma_long).
  assert (length (diff sig) = length (index df)) as Lp
    by (rewrite diff_length; unfold sig; rewrite signal_column_length;
        congruence).
  eexists _, _, _, sig, (diff sig),
    (trade_rows (index df) (diff sig) close).
  split; [exact Hmain|]. split; [apply lookup_insert_eq|].
  split; [done|]. split; [done|]. split.
  { apply (execute_trades_run _ _
             (signals_frame (index df) close sma_short sma_long)
             (diff sig) close); [apply lookup_insert_eq|done..]. }
  split; [exact (trade_log_prints (signals_frame _ _ _ _) _ _ Lp Lc)|].
  split; [by apply trade_rows_length|].
  intros i d pr Hi Hpr.
  destruct (lookup_lt_is_Some_2 (diff sig) i) as [p Hp].
  { rewrite Lp. by eapply lookup_lt_Some. }
  exists p, (row_prints d p pr). split; [done|].
  split; [by apply trade_rows_lookup|].
  destruct (diff_flags_lookup sig i p (signal_column_flags _ _) Hp)
    as (Hup & Hdown & H0).
  split; [apply row_prints_buy|]. split; [done|].
  split; [apply row_prints_sell|]. split; [done|].
  split; [apply row_prints_none|].
  intros ->. rewrite (H0 eq_refl). done.
Qed.

Lemma C4_witness :
  ∃ (signals : loc) (sdf : DataFrame) (w1 : world)
    (signal positions : list float64) (rows : list (list event)),
    main_py.generate_signals 1%positive example_world = (inr signals, w1)
    ∧ heap w1 !! signals = Some sdf
    ∧ columns sdf !! "signal" = Some signal
    ∧ columns sdf !! "positions" = Some positions
    ∧ main_py.execute_trades signals w1
      = (inr tt,
         World (heap w1)
               (out w1 ++ [Print Executing] ++ concat rows ++ [Print Complete]))
    ∧ log_prints (app_py.trade_log sdf positions (Fin <$> example_close))
      = concat rows
    ∧ length rows = length (index example_indicated)
    ∧ ∀ (i : nat) (d : date) (pr : float64),
        index example_indicated !! i = Some d →
        (Fin <$> example_close) !! i = Some pr →
        ∃ (p : float64) (row : list event),
          positions !! i = Some p ∧ rows !! i = Some row
          ∧ (row = [Print (BuyAt d pr)] ↔ p = f1)
          ∧ (p = f1 ↔ ∃ j : nat, i = S j ∧ signal !! j = Some f0
                                 ∧ signal !! i = Some f1)
          ∧ (row = [Print (SellAt d pr)] ↔ p = fm1)
          ∧ (p = fm1 ↔ ∃ j : nat, i = S j ∧ signal !! j = Some f1
                                  ∧ signal !! i = Some f0)
          ∧ (row = [] ↔ p ≠ f1 ∧ p ≠ fm1)
          ∧ (i = 0%nat → p = NaN ∧ row = []).
Proof.
  apply (C4_events_fire_exactly_at_crossovers example_world 1%positive
           example_indicated (Fin <$> example_close) example_short example_long).
  - reflexivity.
  - repeat split; reflexivity.
Defined.

(** ** Counting the events *)

Lemma count_if_app {A} (f : A → bool) (l k : list A) :
  count_if f (l ++ k) = count_if f l + count_if f k.
Proof. induction l as [|x l IH]; simpl; lia. Qed.

Lemma row_prints_balance (d : date) (x y pr : float64) :
  flag x → flag y →
  count_if is_buy (row_prints d (fsub y x) pr)
  - count_if is_sell (row_prints d (fsub y x) pr)
  = flagZ y - flagZ x.
Proof. unfold flag. by intros [-> | ->] [-> | ->]; vm_compute. Qed.

Lemma trade_rows_balance (c : list float64) (x : float64)
    (idx : list date) (price : list float64) :
  flag x → Forall flag c →
  length idx = length c → length price = length c →
  count_if is_buy (concat (trade_rows idx (zip_with fsub c (x :: c)) price))
  - count_if is_sell (concat (trade_rows idx (zip_with fsub c (x :: c)) price))
  = flagZ (default x (last c)) - flagZ x.
Proof.
  revert x idx price.
  induction c as [|y c IH]; intros x [|d idx] [|pr price] Fx Fc Li Lp;
    simplify_eq/=; [lia|].
  apply Forall_cons in Fc as [Fy Fc].
  unfold trade_rows in *. simpl. rewrite !count_if_app.
  pose proof (row_prints_balance d x y pr Fx Fy) as Hrow.
  pose proof (IH y idx price Fy Fc ltac:(done) ltac:(done)) as Htail.
  replace (default x (last (y :: c))) with (default y (last c))
    by (rewrite last_cons; by destruct (last c)).
  lia.
Qed.

Lemma flag_difference (x y : float64) :
  flag x → flag y →
  ∃ qx qy : Qc,
    x = Fin qx ∧ y = Fin qy
    ∧ Q2Qc (inject_Z (flagZ y - flagZ x)) = (qy - qx)%Qc.
Proof.
  assert (flagZ f0 = 0) as E0 by done.
  assert (flagZ f1 = 1) as E1 by done.
  unfold flag. intros [-> | ->] [-> | ->]; rewrite ?E0, ?E1;
    eexists _, _; (split; [reflexivity|]); (split; [reflexivity|]);
    by apply Qc_is_canon.
Qed.

(** C6. After [generate_signals] on a non-empty indicated series, the
    first and the last signal are numbers [q0] and [qf], and the number
    of BUY lines printed by [execute_trades] minus the number of SELL
    lines is the number [qf - q0], that is [signal[last] - signal[0]];
    the same holds for the rows of the trade log of [app.py]. *)
Theorem C6_buys_minus_sells_telescopes
    (w : world) (data : loc) (df : DataFrame)
    (close sma_short sma_long : list float64) :
  heap w !! data = Some df →
  indicated df close sma_short sma_long →
  (0 < length (index df))%nat →
  ∃ (signals : loc) (sdf : DataFrame) (w1 : world)
    (signal positions : list float64) (evs : list event)
    (first final : float64),
    main_py.generate_signals data w = (inr signals, w1)
    ∧ heap w1 !! signals = Some sdf
    ∧ columns sdf !! "signal" = Some signal
    ∧ columns sdf !! "positions" = Some positions
    ∧ main_py.execute_trades signals w1
      = (inr tt, World (heap w1) (out w1 ++ evs))
    ∧ signal !! 0%nat = Some first
    ∧ last signal = Some final
    ∧ ∃ q0 qf : Qc,
        first = Fin q0 ∧ final = Fin qf
        ∧ Q2Qc (inject_Z (count_if is_buy evs - count_if is_sell evs))
          = (qf - q0)%Qc
        ∧ Q2Qc (inject_Z
                  (count_if is_buy
                     (log_prints (app_py.trade_log sdf positions close))
                   - count_if is_sell
                       (log_prints (app_py.trade_log sdf positions close))))
          = (qf - q0)%Qc.
Proof.
  intros Hd (Hc & Hs & Hl & Lc & Ls & Ll) Hn.
  destruct (generate_signals_run w data df close sma_short sma_long
              Hd Hc Hs Hl) as (Hmain & _ & _).
  pose proof (signal_column_flags sma_short sma_long) as Hf.
  assert (length (signal_column sma_short sma_long) = length (index df)) as Lg
    by (rewrite signal_column_length; congruence).
  destruct (signal_column sma_short sma_long) as [|x c] eqn:Esig;
    [simpl in Lg; lia|].
  apply Forall_cons in Hf as [Fx Fc].
  destruct (index df) as [|d idx] eqn:Eidx; [simpl in Hn; lia|].
  destruct close as [|pr price]; [done|].
  simpl in Lg, Lc.
  pose proof (trade_rows_balance c x idx price Fx Fc ltac:(lia) ltac:(lia))
    as Hbal.
  assert (Forall flag (x :: c)) as Fxc by by constructor.
  assert (flag (default x (last c))) as Fl.
  { destruct (last c) as [z|] eqn:El; [|done]. simpl.
    apply last_Some_elem_of in El. rewrite Forall_forall in Fc.
    by apply Fc. }
  destruct (flag_difference x _ Fx Fl) as (q0 & qf & Eq0 & Eqf & Hq).
  eexists _, (signals_frame (d :: idx) (pr :: price) sma_short sma_long), _,
    (x :: c), (diff (x :: c)),
    ([Print Executing]
       ++ concat (trade_rows (d :: idx) (diff (x :: c)) (pr :: price))
       ++ [Print Complete]),
    x, (default x (last c)).
  split; [rewrite <- Eidx in *; exact Hmain|].
  split; [rewrite Eidx; apply lookup_insert_eq|].
  split; [simpl; by rewrite Esig|].
  split; [simpl; by rewrite Esig|].
  split.
  { apply (execute_trades_run _ _
             (signals_frame (d :: idx) (pr :: price) sma_short sma_long)
             (diff (x :: c)) (pr :: price)); simpl;
      rewrite ?Eidx, ?Esig; try done.
    - apply lookup_insert_eq.
    - simpl. rewrite length_zip_with. simpl. lia. }
  split; [done|].
  split; [rewrite last_cons; by destruct (last c)|].
  assert (concat (trade_rows (d :: idx) (diff (x :: c)) (pr :: price))
          = concat (trade_rows idx (zip_with fsub c (x :: c)) price)) as Hrows
    by done.
  exists q0, qf. split; [done|]. split; [done|]. split.
  - rewrite Hrows. cbn [app count_if is_buy is_sell].
    rewrite !count_if_app. cbn [count_if is_buy is_sell].
    rewrite <- Hq. do 2 f_equal. lia.
  - assert (log_prints
              (app_py.trade_log
                 (signals_frame (d :: idx) (pr :: price) sma_short sma_long)
                 (diff (x :: c)) (pr :: price))
            = concat (trade_rows (d :: idx) (diff (x :: c)) (pr :: price)))
      as -> by (apply (trade_log_prints (signals_frame _ _ _ _)); simpl;
                rewrite ?length_zip_with; simpl; lia).
    rewrite Hrows, <- Hq. do 2 f_equal. lia.
Qed.

Lemma C6_witness :
  ∃ (signals : loc) (sdf : DataFrame) (w1 : world)
    (signal positions : list float64) (evs : list event)
    (first final : float64),
    main_py.generate_signals 1%positive example_rally_world = (inr signals, w1)
    ∧ heap w1 !! signals = Some sdf
    ∧ columns sdf !! "signal" = Some signal
    ∧ columns sdf !! "positions" = Some positions
    ∧ main_py.execute_trades signals w1
      = (inr tt, World (heap w1) (out w1 ++ evs))
    ∧ signal !! 0%nat = Some first
    ∧ last signal = Some final
    ∧ ∃ q0 qf : Qc,
        first = Fin q0 ∧ final = Fin qf
        ∧ Q2Qc (inject_Z (count_if is_buy evs - count_if is_sell evs))
          = (qf - q0)%Qc
        ∧ Q2Qc (inject_Z
                  (count_if is_buy
                     (log_prints
                        (app_py.trade_log sdf positions example_rally_close))
                   - count_if is_sell
                       (log_prints
                          (app_py.trade_log sdf positions
                             example_rally_close))))
          = (qf - q0)%Qc.
Proof.
  apply (C6_buys_minus_sells_telescopes example_rally_world 1%positive
           example_rally example_rally_close example_rally_short
           example_rally_long).
  - reflexivity.
  - repeat split; reflexivity.
  - simpl. lia.
Defined.

Example rally_ends_long :
  signal_column example_rally_short example_rally_long = [f0; f0; f0; f1; f1]
  ∧ diff (signal_column example_rally_short example_rally_long)
    = [NaN; fsub f0 f0; fsub f0 f0; Fin (Q2Qc (1 # 1)); fsub f1 f1]
  ∧ concat (trade_rows [1; 2; 3; 4; 5]
              (diff (signal_column example_rally_short example_rally_long))
              example_rally_close)
    = [Print (BuyAt 4 (Fin (Q2Qc (20 # 1))))].
Proof.
  repeat split; vm_compute;
    repeat first [reflexivity | apply Qc_is_canon; reflexivity | f_equal].
Qed.

(** ** The pipeline as a function of the series and the windows *)

Lemma rolling_mean_length (values r : list float64) (window minp : Z) :
  rolling_mean values window minp = inr r → length r = length values.
Proof.
  unfold rolling_mean. destruct (window <? minp); [done|].
  destruct (window <? 0); [done|]. intros [= <-].
  rewrite roll_mean_loop_windows by auto.
  by rewrite length_fmap, length_seq.
Qed.

Lemma drop_out (o evs : list event) : drop (length o) (o ++ evs) = evs.
Proof. by rewrite drop_app_length. Qed.

Lemma app_pipeline_observed (w : world) (data : loc) (df : DataFrame)
    (short_window long_window : Z) :
  heap w !! data = Some df →
  observed w (app_pipeline data short_window long_window w)
  = app_observation (index df) (columns df !! "Close")
      short_window long_window.
Proof.
  intros Hd. unfold app_pipeline, app_observation, signal_rows.
  unfold mbind at 1, M_bind, bind.
  rewrite app_add_moving_averages_unfold.
  rewrite (assign_moving_averages_cases w data df _ _ Hd).
  destruct (columns df !! "Close") as [close|] eqn:Hc.
  2: { unfold observed. simpl. by rewrite drop_all. }
  destruct (rolling_mean close short_window 1) as [e|short] eqn:Hs.
  { unfold observed. simpl. by rewrite drop_all. }
  destruct (rolling_mean close long_window 1) as [e|long] eqn:Hl.
  { unfold observed. simpl. by rewrite drop_all. }
  unfold app_py.generate_signals.
  erewrite (build_signals_run _ data (with_moving_averages df short long)
              close short long).
  - unfold observed. simpl. by rewrite lookup_insert_eq, drop_all.
  - apply lookup_insert_eq.
  - heap_lookup.
  - heap_lookup.
  - heap_lookup.
Qed.

Lemma main_pipeline_observed (w : world) (data : loc) (df : DataFrame)
    (short_window long_window : Z) :
  heap w !! data = Some df →
  wf_frame df →
  observed w (main_pipeline data short_window long_window w)
  = main_observation (index df) (columns df !! "Close")
      short_window long_window.
Proof.
  intros Hd Hwf. unfold main_pipeline, main_observation, signal_rows.
  unfold mbind at 1, M_bind, bind.
  rewrite main_add_moving_averages_unfold.
  rewrite (assign_moving_averages_cases (World (heap w) _) data df _ _ Hd).
  cbn [heap out].
  destruct (columns df !! "Close") as [close|] eqn:Hc.
  2: { unfold observed. simpl. by rewrite drop_out. }
  destruct (rolling_mean close short_window 1) as [e|short] eqn:Hs.
  { unfold observed. simpl. by rewrite drop_out. }
  destruct (rolling_mean close long_window 1) as [e|long] eqn:Hl.
  { unfold observed. simpl. by rewrite drop_out. }
  pose proof (Hwf _ _ Hc) as Lc.
  pose proof (rolling_mean_length _ _ _ _ Hs) as Ls.
  pose proof (rolling_mean_length _ _ _ _ Hl) as Ll.
  set (w1 := World _ _).
  assert (heap w1 !! data = Some (with_moving_averages df short long)) as Hd1
    by apply lookup_insert_eq.
  destruct (generate_signals_run w1 data _ close short long Hd1)
    as (Hgen & _ & _).
  { heap_lookup. }
  { heap_lookup. }
  { heap_lookup. }
  rewrite (bind_inr _ _ _ _ _ Hgen).
  set (sdf := signals_frame _ _ _ _) in *.
  set (signals := fresh _) in *. set (w2 := World _ _).
  assert (heap w2 !! signals = Some sdf) as Hs2 by apply lookup_insert_eq.
  assert (length (diff (signal_column short long)) = length (index df)) as Lp
    by (rewrite diff_length, signal_column_length; congruence).
  rewrite (bind_inr _ _ _ _ _
             (execute_trades_run w2 signals sdf
                (diff (signal_column short long)) close Hs2
                ltac:(done) ltac:(done) Lp Lc)).
  rewrite ret_run. unfold observed. cbn [fst snd heap out]. rewrite Hs2.
  f_equal. subst w2 w1. cbn [heap out].
  rewrite <- !app_assoc, drop_out. done.
Qed.

Lemma assign_wf (k : string) (c : list float64) (df : DataFrame) :
  wf_frame df → length c = length (index df) → wf_frame (assign k c df).
Proof.
  intros Hwf Hc k' c'. unfold assign. simpl. rewrite lookup_insert.
  case_decide; [by intros [= <-]|apply Hwf].
Qed.

(** C8. The signal rows and the events produced by
    [generate(compute(series, s, l))] depend only on the index and the
    close column of the series and on the two windows. Two runs that
    agree on these agree on everything they return and emit, success or
    exception alike, whatever else the two stores hold, wherever the
    frames live and whatever was printed before. *)
Theorem C8_pipeline_is_deterministic
    (w1 w2 : world) (data1 data2 : loc) (df1 df2 : DataFrame)
    (short_window long_window : Z) :
  heap w1 !! data1 = Some df1 →
  heap w2 !! data2 = Some df2 →
  wf_frame df1 → wf_frame df2 →
  index df1 = index df2 →
  columns df1 !! "Close" = columns df2 !! "Close" →
  observed w1 (main_pipeline data1 short_window long_window w1)
  = observed w2 (main_pipeline data2 short_window long_window w2)
  ∧ observed w1 (app_pipeline data1 short_window long_window w1)
    = observed w2 (app_pipeline data2 short_window long_window w2)
  ∧ observed w1 (main_pipeline data1 short_window long_window w1)
    = main_observation (index df1) (columns df1 !! "Close")
        short_window long_window
  ∧ observed w1 (app_pipeline data1 short_window long_window w1)
    = app_observation (index df1) (columns df1 !! "Close")
        short_window long_window.
Proof.
  intros H1 H2 W1 W2 Hi Hc.
  rewrite (main_pipeline_observed w1 data1 df1 _ _ H1 W1).
  rewrite (main_pipeline_observed w2 data2 df2 _ _ H2 W2).
  rewrite (app_pipeline_observed w1 data1 df1 _ _ H1).
  rewrite (app_pipeline_observed w2 data2 df2 _ _ H2).
  by rewrite Hi, Hc.
Qed.

Lemma C8_witness :
  observed example_fetched (main_pipeline 1%positive 2 4 example_fetched)
  = observed example_other_world
      (main_pipeline 5%positive 2 4 example_other_world)
  ∧ observed example_fetched (app_pipeline 1%positive 2 4 example_fetched)
    = observed example_other_world
        (app_pipeline 5%positive 2 4 example_other_world)
  ∧ observed example_fetched (main_pipeline 1%positive 2 4 example_fetched)
    = main_observation (index example_prices)
        (columns example_prices !! "Close") 2 4
  ∧ observed example_fetched (app_pipeline 1%positive 2 4 example_fetched)
    = app_observation (index example_prices)
        (columns example_prices !! "Close") 2 4.
Proof.
  apply (C8_pipeline_is_deterministic example_fetched example_other_world
           1%positive 5%positive example_prices example_stale 2 4).
  - reflexivity.
  - reflexivity.
  - apply (bool_decide_unpack _). vm_compute. exact I.
  - apply (bool_decide_unpack _). vm_compute. exact I.
  - reflexivity.
  - reflexivity.
Defined.

(** ** The worked series, run

    Closes 10 10 10 20 20 20 20 10 10 10 on days 1 to 10, windows 2 and 4:
    the short average is above the long one on days 4, 5 and 6 only, so
    there is one BUY, on day 4, and one SELL, on day 7. *)

Example worked_signal :
  signal_column example_short example_long
  = [f0; f0; f0; f1; f1; f1; f0; f0; f0; f0].
Proof. vm_compute. reflexivity. Qed.

Example worked_main_events :
  (observed example_fetched (main_pipeline 1%positive 2 4 example_fetched)).2
  = [Print (Calculating 2 4); Print Calculated; Print Generating;
     Print Generated; Print Executing;
     Print (BuyAt 4 (Fin (QcZ 20))); Print (SellAt 7 (Fin (QcZ 20)));
     Print Complete].
Proof. vm_compute. reflexivity. Qed.

Example worked_app_trade_log :
  last (out (app_py.script example_provider "AAPL" "2022-01-01" "2023-01-01"
               2 4 (World ∅ [])).2)
  = Some (StDataframe
            (MkTradeLog [4; 7] [Fin (QcZ 20); Fin (QcZ 20)] [BUY; SELL])).
Proof. vm_compute. reflexivity. Qed.

(** One bar: both averages are the close, the signal is 0.0, the position
    is NaN and there is no event. *)
Example single_bar :
  observed example_single (main_pipeline 1%positive 2 4 example_single)
  = (inr (Some (Frame [1]
                  (list_to_map
                     [("price", [Fin (QcZ 5)]); ("SMA_Short", [Fin (QcZ 5)]);
                      ("SMA_Long", [Fin (QcZ 5)]); ("signal", [f0]);
                      ("positions", [NaN])]))),
     [Print (Calculating 2 4); Print Calculated; Print Generating;
      Print Generated; Print Executing; Print Complete]).
Proof. vm_compute. reflexivity. Qed.

(** With the windows of [main.py], 40 and 100, and too few bars for
    either, the two averages coincide and no event is ever printed. *)
Example worked_default_windows :
  (observed example_fetched
     (main_pipeline 1%positive main_py.SHORT_WINDOW main_py.LONG_WINDOW
        example_fetched)).2
  = [Print (Calculating 40 100); Print Calculated; Print Generating;
     Print Generated; Print Executing; Print Complete].
Proof. vm_compute. reflexivity. Qed.

(** The table [run_strategy] prints last, under "Sample of Trades", keeps
    the rows with [positions != 0]. NaN is unequal to 0.0, so the first
    row is listed there although no BUY or SELL line was printed for it. *)
Example worked_sample_of_trades :
  match last (out (main_py.run_strategy example_provider (World ∅ [])).2) with
  | Some (Print (Table df)) => Some (index df, columns df !! "positions")
  | _ => None
  end
  = Some ([1], Some [NaN]).
Proof. vm_compute. reflexivity. Qed.

(** * Further properties of the two files *)

(** ** [fetch_data] *)

Section FetchData.
Variable yf_download : string → string → string → download_result.

Lemma main_fetch_data_available (ticker start end_ : string) (df : DataFrame)
    (w : world) :
  yf_download ticker start end_ = Returns df → empty df = false →
  main_py.fetch_data yf_download ticker start end_ w
  = (inr (Some (fresh (dom (heap w)))),
     World (<[fresh (dom (heap w)) := df]> (heap w))
           (out w ++ [Print (Fetching ticker start end_);
                      YfDownload ticker start end_; Print Fetched])).
Proof.
  intros Hr He. unfold main_py.fetch_data, print. do 2 run_emit. simpl.
  rewrite Hr, He. run_emit.
  rewrite (bind_inr _ _ _ _ _ (alloc_run _ _)), ret_run. simpl.
  by rewrite <- !app_assoc.
Qed.

Lemma app_fetch_data_available (ticker start end_ : string) (df : DataFrame)
    (w : world) :
  yf_download ticker start end_ = Returns df → empty df = false →
  app_py.fetch_data yf_download ticker start end_ w
  = (inr (Some (fresh (dom (heap w)))),
     World (<[fresh (dom (heap w)) := df]> (heap w))
           (out w ++ [YfDownload ticker start end_])).
Proof.
  intros Hr He. unfold app_py.fetch_data. run_emit. simpl.
  rewrite Hr, He.
  by rewrite (bind_inr _ _ _ _ _ (alloc_run _ _)), ret_run.
Qed.

(** X1. [fetch_data] never lets an exception out. It returns [None], with
    the store as it was, exactly when the provider raised or returned an
    empty frame; otherwise it returns a reference no live object had,
    behind which is the very frame the provider returned, and every
    object that was live keeps its address and content. Both files. *)
Theorem X1_fetch_data_none_or_the_provider_frame
    (ticker start end_ : string) (w : world) :
  let r := yf_download ticker start end_ in
  let res_main := main_py.fetch_data yf_download ticker start end_ w in
  let res_app := app_py.fetch_data yf_download ticker start end_ w in
  res_main.1 = res_app.1
  ∧ heap res_main.2 = heap res_app.2
  ∧ ((unavailable r ∧ res_app.1 = inr None ∧ heap res_app.2 = heap w)
     ∨ (∃ (df : DataFrame) (data : loc),
          r = Returns df ∧ empty df = false
          ∧ res_app.1 = inr (Some data)
          ∧ heap w !! data = None
          ∧ heap res_app.2 !! data = Some df
          ∧ ∀ l : loc, l ≠ data → heap res_app.2 !! l = heap w !! l)).
Proof.
  intros r res_main res_app. subst r res_main res_app.
  destruct (yf_download ticker start end_) as [e|df] eqn:Hr.
  - rewrite main_fetch_data_unavailable, app_fetch_data_unavailable
      by (by rewrite Hr).
    split; [done|]. split; [done|]. by left.
  - destruct (empty df) eqn:He.
    + rewrite main_fetch_data_unavailable, app_fetch_data_unavailable
        by (by rewrite Hr).
      split; [done|]. split; [done|]. by left.
    + rewrite (main_fetch_data_available _ _ _ _ _ Hr He),
        (app_fetch_data_available _ _ _ _ _ Hr He).
      split; [done|]. split; [done|]. right.
      exists df, (fresh (dom (heap w))). simpl.
      split; [done|]. split; [done|]. split; [done|].
      split; [apply fresh_not_live|].
      split; [apply lookup_insert_eq|].
      intros l Hl. by rewrite lookup_insert_ne.
Qed.

End FetchData.

(** ** Failures of [add_moving_averages] *)

Lemma rolling_mean_bad_window (values : list float64) (window : Z) :
  window < 1 → ∃ msg : string, rolling_mean values window 1 = inl (ValueError msg).
Proof.
  intros H. unfold rolling_mean.
  destruct (Z.ltb_spec window 1); [by eexists | lia].
Qed.

Lemma rolling_mean_good_window (values : list float64) (window : Z) :
  1 ≤ window →
  rolling_mean values window 1
  = inr ((λ i, calc_mean 1 (window_state values (Z.to_nat window) i))
           <$> seq 0 (length values)).
Proof.
  intros H. unfold rolling_mean.
  destruct (Z.ltb_spec window 1); [lia|].
  destruct (Z.ltb_spec window 0); [lia|].
  by rewrite roll_mean_loop_windows by auto.
Qed.

Lemma add_moving_averages_cases (w : world) (data : loc) (df : DataFrame)
    (s l : Z) :
  heap w !! data = Some df →
  let res := assign_moving_averages data s l w in
  app_py.add_moving_averages data s l w
  = (match res.1 with inl e => inl e | inr _ => inr data end, res.2)
  ∧ main_py.add_moving_averages data s l w
    = (match res.1 with inl e => inl e | inr _ => inr data end,
       World (heap res.2)
             (out w ++ Print (Calculating s l)
                       :: match res.1 with
                          | inl _ => []
                          | inr _ => [Print Calculated]
                          end)).
Proof.
  intros Hd res. subst res.
  rewrite app_add_moving_averages_unfold, main_add_moving_averages_unfold.
  rewrite (assign_moving_averages_cases (World (heap w) _) data df _ _ Hd).
  rewrite (assign_moving_averages_cases w data df _ _ Hd).
  cbn [heap out].
  destruct (columns df !! "Close") as [close|]; [|done].
  destruct (rolling_mean close s 1); [done|].
  destruct (rolling_mean close l 1); [done|].
  simpl. by rewrite <- app_assoc.
Qed.

(** X2. On a frame without a [Close] column [add_moving_averages] raises
    [KeyError] for "Close" and leaves the store as it was; [main.py] has
    by then printed its first line and does not print the second. *)
Theorem X2_add_moving_averages_needs_close
    (w : world) (data : loc) (df : DataFrame) (short_window long_window : Z) :
  heap w !! data = Some df →
  columns df !! "Close" = None →
  app_py.add_moving_averages data short_window long_window w
  = (inl (KeyError "Close"), w)
  ∧ main_py.add_moving_averages data short_window long_window w
    = (inl (KeyError "Close"),
       World (heap w)
             (out w ++ [Print (Calculating short_window long_window)])).
Proof.
  intros Hd Hc.
  destruct (add_moving_averages_cases w data df short_window long_window Hd)
    as [-> ->].
  rewrite (assign_moving_averages_cases w data df _ _ Hd), Hc.
  by destruct w.
Qed.

Lemma X2_witness :
  let w := World {[ 1%positive := Frame [1; 2] {[ "Open" := [f0; f1] ]} ]} [] in
  app_py.add_moving_averages 1%positive 2 4 w = (inl (KeyError "Close"), w)
  ∧ main_py.add_moving_averages 1%positive 2 4 w
    = (inl (KeyError "Close"),
       World (heap w) (out w ++ [Print (Calculating 2 4)])).
Proof.
  intros w.
  apply (X2_add_moving_averages_needs_close w 1%positive
           (Frame [1; 2] {[ "Open" := [f0; f1] ]}) 2 4); reflexivity.
Defined.

(** X3. A short window below 1 is refused: [add_moving_averages] raises
    [ValueError] before writing anything, so the store is as it was. *)
Theorem X3_short_window_below_one_is_refused
    (w : world) (data : loc) (df : DataFrame) (close : list float64)
    (short_window long_window : Z) :
  heap w !! data = Some df →
  columns df !! "Close" = Some close →
  short_window < 1 →
  ∃ msg : string,
    app_py.add_moving_averages data short_window long_window w
    = (inl (ValueError msg), w)
    ∧ main_py.add_moving_averages data short_window long_window w
      = (inl (ValueError msg),
         World (heap w)
               (out w ++ [Print (Calculating short_window long_window)])).
Proof.
  intros Hd Hc Hs.
  destruct (rolling_mean_bad_window close short_window Hs) as [msg Hr].
  exists msg.
  destruct (add_moving_averages_cases w data df short_window long_window Hd)
    as [-> ->].
  rewrite (assign_moving_averages_cases w data df _ _ Hd), Hc, Hr.
  by destruct w.
Qed.

Lemma X3_witness :
  ∃ msg : string,
    app_py.add_moving_averages 1%positive 0 4 example_fetched
    = (inl (ValueError msg), example_fetched)
    ∧ main_py.add_moving_averages 1%positive 0 4 example_fetched
      = (inl (ValueError msg),
         World (heap example_fetched)
               (out example_fetched ++ [Print (Calculating 0 4)])).
Proof.
  apply (X3_short_window_below_one_is_refused example_fetched 1%positive
           example_prices (Fin <$> example_close) 0 4);
    [reflexivity | reflexivity | lia].
Defined.



Lemma with_moving_averages_twice (df : DataFrame) (short long : list float64) :
  with_moving_averages (with_moving_averages df short long) short long
  = with_moving_averages df short long.
Proof.
  unfold with_moving_averages, assign. simpl. f_equal.
  apply map_eq. intros k. rewrite !lookup_insert.
  by repeat case_decide.
Qed.

(** X5. [add_moving_averages] can be repeated: once a call with given
    windows has succeeded, a second call with the same windows on the
    returned frame succeeds and leaves the store exactly as the first
    call left it. *)
Theorem X5_add_moving_averages_is_idempotent
    (w w1 : world) (data r : loc) (df : DataFrame)
    (short_window long_window : Z) :
  heap w !! data = Some df →
  app_py.add_moving_averages data short_window long_window w = (inr r, w1) →
  app_py.add_moving_averages r short_window long_window w1 = (inr r, w1)
  ∧ ∃ w2 : world,
      main_py.add_moving_averages r short_window long_window w1 = (inr r, w2)
      ∧ heap w2 = heap w1.
Proof.
  intros Hd Hrun.
  destruct (add_moving_averages_cases w data df short_window long_window Hd)
    as [Happ _].
  rewrite Happ, (assign_moving_averages_cases w data df _ _ Hd) in Hrun.
  destruct (columns df !! "Close") as [close|] eqn:Hc; [|done].
  destruct (rolling_mean close short_window 1) as [|short] eqn:Hs; [done|].
  destruct (rolling_mean close long_window 1) as [|long] eqn:Hl; [done|].
  simpl in Hrun. injection Hrun as <- <-.
  set (w1 := World _ _).
  assert (heap w1 !! data = Some (with_moving_averages df short long)) as Hd1
    by apply lookup_insert_eq.
  assert (columns (with_moving_averages df short long) !! "Close" = Some close)
    as Hc1 by heap_lookup.
  destruct (add_moving_averages_cases w1 data _ short_window long_window Hd1)
    as [-> ->].
  rewrite (assign_moving_averages_run w1 data _ close short long _ _
             Hd1 Hc1 Hs Hl).
  subst w1. cbn [fst snd heap out].
  rewrite insert_insert_eq, with_moving_averages_twice.
  split; [done|]. by eexists.
Qed.

Lemma X5_witness :
  let res := app_py.add_moving_averages 1%positive 2 4 example_fetched in
  app_py.add_moving_averages 1%positive 2 4 res.2 = (inr 1%positive, res.2)
  ∧ ∃ w2 : world,
      main_py.add_moving_averages 1%positive 2 4 res.2 = (inr 1%positive, w2)
      ∧ heap w2 = heap res.2.
Proof.
  intros res.
  apply (X5_add_moving_averages_is_idempotent example_fetched res.2
           1%positive 1%positive example_prices 2 4); reflexivity.
Defined.

(** ** Missing closes *)

(** X6. With closes missing (NaN) or infinite, [add_moving_averages]
    still succeeds and writes one value per row.  A row whose window
    holds no close that is present gets NaN; in a pass without rounding
    every other row gets the mean of the closes of its window that are
    present. *)
Theorem X6_moving_averages_skip_missing_closes
    (data : gmap string (list float)) (close : list float)
    (short_window long_window : Z) :
  data !! "Close" = Some close →
  0 < short_window < 2 ^ 63 → 0 < long_window < 2 ^ 63 →
  ∃ sma_short sma_long : list float,
    binary64.add_moving_averages data short_window long_window
    = inr (<["SMA_Long" := sma_long]> (<["SMA_Short" := sma_short]> data))
    ∧ length sma_short = length close
    ∧ length sma_long = length close
    ∧ ∀ i : nat, (i < length close)%nat →
        ∃ a b : float,
          sma_short !! i = Some a
          ∧ sma_long !! i = Some b
          ∧ (binary64.count_present (binary64.window close short_window i)
             = 0 → is_nan a = true)
          ∧ (binary64.count_present (binary64.window close long_window i)
             = 0 → is_nan b = true)
          ∧ (binary64.exact_pass close short_window = true →
             0 < binary64.count_present
                   (binary64.window close short_window i) →
             binary64.is_mean_of_present a
               (binary64.window close short_window i) = true)
          ∧ (binary64.exact_pass close long_window = true →
             0 < binary64.count_present
                   (binary64.window close long_window i) →
             binary64.is_mean_of_present b
               (binary64.window close long_window i) = true).
Proof.
  intros Hc Hs Hl.
  destruct (binary64_facts.rolling_mean_rows close short_window Hs)
    as (sma_short & Rs & Ls & Hrs).
  destruct (binary64_facts.rolling_mean_rows close long_window Hl)
    as (sma_long & Rl & Ll & Hrl).
  exists sma_short, sma_long.
  split; [by apply binary64_facts.add_moving_averages_run with close|].
  split; [done|]. split; [done|]. intros i Hi.
  destruct (Hrs i Hi) as (a & Ha & Hna & Hma).
  destruct (Hrl i Hi) as (b & Hb & Hnb & Hmb).
  by exists a, b.
Qed.

Lemma X6_witness :
  binary64.exact_pass binary64.example_gaps 2 = true
  ∧ binary64.exact_pass binary64.example_gaps 3 = true
  ∧ binary64.count_present (binary64.window binary64.example_gaps 2 2) = 0
  ∧ binary64.count_present (binary64.window binary64.example_gaps 3 3) = 1
  ∧ binary64.is_mean_of_present 20%float [nan; nan; 20]%float = true
  ∧ binary64.is_mean_of_present 20%float [nan; 10; 20]%float = false
  ∧ ∃ sma_short sma_long : list float,
      binary64.add_moving_averages
        {[ "Close" := binary64.example_gaps ]} 2 3
      = inr (<["SMA_Long" := sma_long]>
               (<["SMA_Short" := sma_short]>
                  {[ "Close" := binary64.example_gaps ]}))
      ∧ length sma_short = length binary64.example_gaps
      ∧ length sma_long = length binary64.example_gaps
      ∧ ∀ i : nat, (i < length binary64.example_gaps)%nat →
          ∃ a b : float,
            sma_short !! i = Some a
            ∧ sma_long !! i = Some b
            ∧ (binary64.count_present
                 (binary64.window binary64.example_gaps 2 i) = 0 →
               is_nan a = true)
            ∧ (binary64.count_present
                 (binary64.window binary64.example_gaps 3 i) = 0 →
               is_nan b = true)
            ∧ (binary64.exact_pass binary64.example_gaps 2 = true →
               0 < binary64.count_present
                     (binary64.window binary64.example_gaps 2 i) →
               binary64.is_mean_of_present a
                 (binary64.window binary64.example_gaps 2 i) = true)
            ∧ (binary64.exact_pass binary64.example_gaps 3 = true →
               0 < binary64.count_present
                     (binary64.window binary64.example_gaps 3 i) →
               binary64.is_mean_of_present b
                 (binary64.window binary64.example_gaps 3 i) = true).
Proof.
  do 6 (split; [vm_compute; reflexivity|]).
  apply (X6_moving_averages_skip_missing_closes
           {[ "Close" := binary64.example_gaps ]} binary64.example_gaps 2 3);
    [reflexivity | lia | lia].
Defined.

Example missing_closes_averages :
  binary64.rolling_mean binary64.example_gaps 2 1
  = inr [10; 10; nan; 20; 25]%float
  ∧ binary64.rolling_mean binary64.example_gaps 3 1
    = inr [10; 10; 10; 20; 25]%float
  ∧ binary64.rolling_mean [1; infinity; 3]%float 1 1
    = inr [1; nan; 3]%float.
Proof. repeat split; vm_compute; reflexivity. Qed.

(** ** The first rows, and the order of the trades *)




Lemma row_prints_nan (d : date) (pr : float64) : row_prints d NaN pr = [].
Proof. done. Qed.










(** ** [run_strategy] when data is available *)

Lemma main_add_moving_averages_run (w : world) (data : loc) (df : DataFrame)
    (close short long : list float64) (s l : Z) :
  heap w !! data = Some df →
  columns df !! "Close" = Some close →
  rolling_mean close s 1 = inr short →
  rolling_mean close l 1 = inr long →
  main_py.add_moving_averages data s l w
  = (inr data,
     World (<[data := with_moving_averages df short long]> (heap w))
           (out w ++ [Print (Calculating s l); Print Calculated])).
Proof.
  intros Hd Hc Hs Hl.
  destruct (add_moving_averages_cases w data df s l Hd) as [_ ->].
  by rewrite (assign_moving_averages_run w data df close short long s l).
Qed.

Lemma fresh_after_insert (h : gmap loc DataFrame) (l : loc) (df : DataFrame) :
  h !! fresh (dom (<[l := df]> h)) = None ∧ fresh (dom (<[l := df]> h)) ≠ l.
Proof.
  rewrite dom_insert_L. pose proof (is_fresh ({[l]} ∪ dom h)) as Hf.
  apply not_elem_of_union in Hf as [H1 H2].
  split.
  - by apply not_elem_of_dom.
  - intros E. by apply H1, elem_of_singleton.
Qed.

Section RunStrategy.
Variable yf_download : string → string → string → download_result.

Lemma run_strategy_run (w : world) (df : DataFrame)
    (close short long : list float64) :
  yf_download main_py.TICKER main_py.START_DATE main_py.END_DATE = Returns df →
  empty df = false →
  wf_frame df →
  columns df !! "Close" = Some close →
  rolling_mean close main_py.SHORT_WINDOW 1 = inr short →
  rolling_mean close main_py.LONG_WINDOW 1 = inr long →
  let data := fresh (dom (heap w)) in
  let h1 := <[data := with_moving_averages df short long]> (heap w) in
  let signals := fresh (dom h1) in
  let sdf := signals_frame (index df) close short long in
  let positions := diff (signal_column short long) in
  main_py.run_strategy yf_download w
  = (inr tt,
     World (<[signals := sdf]> h1)
       (out w
        ++ [Print (Fetching main_py.TICKER main_py.START_DATE main_py.END_DATE);
            YfDownload main_py.TICKER main_py.START_DATE main_py.END_DATE;
            Print Fetched;
            Print (Calculating main_py.SHORT_WINDOW main_py.LONG_WINDOW);
            Print Calculated; Print Generating; Print Generated;
            Print Executing]
        ++ concat (trade_rows (index df) positions close)
        ++ [Print Complete; Print SampleSignals; Print (Table (head 10 sdf));
            Print SampleTrades;
            Print (Table (head 5 (filter_rows ((λ p, fne p f0) <$> positions)
                                    sdf)))])).
Proof.
  intros Hr He Hwf Hc Hs Hl data h1 signals sdf positions.
  unfold main_py.run_strategy.
  rewrite (bind_inr _ _ _ _ _ (main_fetch_data_available _ _ _ _ _ _ Hr He)).
  fold data. set (w1 := World _ _).
  assert (heap w1 !! data = Some df) as Hd1 by apply lookup_insert_eq.
  rewrite (bind_inr _ _ _ _ _
             (main_add_moving_averages_run w1 data df close short long _ _
                Hd1 Hc Hs Hl)).
  subst w1. cbn [heap out]. rewrite insert_insert_eq. fold h1.
  set (w2 := World h1 _).
  assert (heap w2 !! data = Some (with_moving_averages df short long)) as Hd2
    by apply lookup_insert_eq.
  destruct (generate_signals_run w2 data _ close short long Hd2)
    as (Hgen & _ & _); [heap_lookup..|].
  rewrite (bind_inr _ _ _ _ _ Hgen). cbn [heap index].
  fold signals. fold sdf. set (w3 := World _ _).
  assert (heap w3 !! signals = Some sdf) as Hs3 by apply lookup_insert_eq.
  pose proof (Hwf _ _ Hc) as Lc. simpl in Lc.
  assert (length positions = length (index df)) as Lp.
  { unfold positions.
    rewrite diff_length, signal_column_length;
      rewrite (rolling_mean_length _ _ _ _ Hs);
      [done | by rewrite (rolling_mean_length _ _ _ _ Hl)]. }
  rewrite (bind_inr _ _ _ _ _
             (execute_trades_run w3 signals sdf positions close Hs3
                ltac:(done) ltac:(done) Lp Lc)).
  unfold print. run_emit. run_load. run_emit. run_emit. run_getcol.
  run_load. rewrite emit_run. subst w3 w2. cbn [heap out index].
  by rewrite <- !app_assoc.
Qed.

(** X10. [run_strategy] ends normally whenever the provider returns a
    non-empty, well-formed frame with a [Close] column: the windows 40
    and 100 always pass validation. The store gains two objects, the
    fetched frame with its averages and the signal rows, and the trace
    is the fetch, the five progress lines, one line per trade, then the
    two sample tables. *)
Theorem X10_run_strategy_succeeds_on_available_data
    (w : world) (df : DataFrame) (close : list float64) :
  yf_download main_py.TICKER main_py.START_DATE main_py.END_DATE = Returns df →
  empty df = false →
  wf_frame df →
  columns df !! "Close" = Some close →
  ∃ (data signals : loc) (df' sdf : DataFrame) (positions : list float64)
    (tables : list event),
    signal_rows (index df) (Some close)
      main_py.SHORT_WINDOW main_py.LONG_WINDOW = inr sdf
    ∧ columns sdf !! "positions" = Some positions
    ∧ heap w !! data = None ∧ heap w !! signals = None ∧ data ≠ signals
    ∧ index df' = index df
    ∧ columns df' !! "Close" = Some close
    ∧ main_py.run_strategy yf_download w
      = (inr tt,
         World (<[signals := sdf]> (<[data := df']> (heap w)))
           (out w
            ++ [Print (Fetching main_py.TICKER main_py.START_DATE
                         main_py.END_DATE);
                YfDownload main_py.TICKER main_py.START_DATE main_py.END_DATE;
                Print Fetched;
                Print (Calculating main_py.SHORT_WINDOW main_py.LONG_WINDOW);
                Print Calculated; Print Generating; Print Generated;
                Print Executing]
            ++ concat (trade_rows (index df) positions close)
            ++ [Print Complete; Print SampleSignals] ++ tables))
    ∧ tables
      = [Print (Table (head 10 sdf)); Print SampleTrades;
         Print (Table (head 5 (filter_rows ((λ p, fne p f0) <$> positions)
                                 sdf)))].
Proof.
  intros Hr He Hwf Hc.
  pose proof (rolling_mean_good_window close main_py.SHORT_WINDOW
                ltac:(done)) as Hs.
  pose proof (rolling_mean_good_window close main_py.LONG_WINDOW
                ltac:(done)) as Hl.
  pose proof (run_strategy_run w df close _ _ Hr He Hwf Hc Hs Hl) as Hrun.
  cbv zeta in Hrun.
  eexists (fresh (dom (heap w))), _, (with_moving_averages df _ _), _, _, _.
  split.
  { unfold signal_rows. by rewrite Hs, Hl. }
  split; [apply signals_frame_positions|].
  split; [apply fresh_not_live|].
  destruct (fresh_after_insert (heap w) (fresh (dom (heap w)))
              (with_moving_averages df
                 ((λ i, calc_mean 1
                          (window_state close
                             (Z.to_nat main_py.SHORT_WINDOW) i))
                    <$> seq 0 (length close))
                 ((λ i, calc_mean 1
                          (window_state close
                             (Z.to_nat main_py.LONG_WINDOW) i))
                    <$> seq 0 (length close)))) as [Hnew Hne].
  split; [exact Hnew|]. split; [by intros E; apply Hne|].
  split; [done|]. split; [heap_lookup|].
  split; [exact Hrun | done].
Qed.

End RunStrategy.

Lemma X10_witness :
  ∃ (data signals : loc) (df' sdf : DataFrame) (positions : list float64)
    (tables : list event),
    signal_rows (index example_prices) (Some (Fin <$> example_close))
      main_py.SHORT_WINDOW main_py.LONG_WINDOW = inr sdf
    ∧ columns sdf !! "positions" = Some positions
    ∧ heap (World ∅ []) !! data = None
    ∧ heap (World ∅ []) !! signals = None ∧ data ≠ signals
    ∧ index df' = index example_prices
    ∧ columns df' !! "Close" = Some (Fin <$> example_close)
    ∧ main_py.run_strategy example_provider (World ∅ [])
      = (inr tt,
         World (<[signals := sdf]> (<[data := df']> (heap (World ∅ []))))
           (out (World ∅ [])
            ++ [Print (Fetching main_py.TICKER main_py.START_DATE
                         main_py.END_DATE);
                YfDownload main_py.TICKER main_py.START_DATE main_py.END_DATE;
                Print Fetched;
                Print (Calculating main_py.SHORT_WINDOW main_py.LONG_WINDOW);
                Print Calculated; Print Generating; Print Generated;
                Print Executing]
            ++ concat (trade_rows (index example_prices) positions
                         (Fin <$> example_close))
            ++ [Print Complete; Print SampleSignals] ++ tables))
    ∧ tables
      = [Print (Table (head 10 sdf)); Print SampleTrades;
         Print (Table (head 5 (filter_rows ((λ p, fne p f0) <$> positions)
                                 sdf)))].
Proof.
  apply (X10_run_strategy_succeeds_on_available_data example_provider
           (World ∅ []) example_prices (Fin <$> example_close));
    [reflexivity | reflexivity | | reflexivity].
  apply (bool_decide_unpack _). vm_compute. exact I.
Defined.

Section RunStrategyEdges.
Variable yf_download : string → string → string → download_result.

(** X11. A non-empty frame without a [Close] column gets past
    [fetch_data] and makes [run_strategy] end with an uncaught
    [KeyError] for "Close": the fetch is reported as successful, the
    first progress line is printed, no average or signal is computed,
    and the fetched frame stays in the store unchanged. *)
Theorem X11_run_strategy_raises_without_close
    (w : world) (df : DataFrame) :
  yf_download main_py.TICKER main_py.START_DATE main_py.END_DATE = Returns df →
  empty df = false →
  columns df !! "Close" = None →
  ∃ data : loc,
    heap w !! data = None
    ∧ main_py.run_strategy yf_download w
      = (inl (KeyError "Close"),
         World (<[data := df]> (heap w))
           (out w
            ++ [Print (Fetching main_py.TICKER main_py.START_DATE
                         main_py.END_DATE);
                YfDownload main_py.TICKER main_py.START_DATE main_py.END_DATE;
                Print Fetched;
                Print (Calculating main_py.SHORT_WINDOW
                         main_py.LONG_WINDOW)])).
Proof.
  intros Hr He Hc. exists (fresh (dom (heap w))).
  split; [apply fresh_not_live|].
  unfold main_py.run_strategy.
  rewrite (bind_inr _ _ _ _ _ (main_fetch_data_available _ _ _ _ _ _ Hr He)).
  set (w1 := World _ _).
  assert (heap w1 !! fresh (dom (heap w)) = Some df) as Hd1
    by apply lookup_insert_eq.
  destruct (add_moving_averages_cases w1 _ df main_py.SHORT_WINDOW
              main_py.LONG_WINDOW Hd1) as [_ Hmain].
  rewrite (assign_moving_averages_cases w1 _ df _ _ Hd1), Hc in Hmain.
  rewrite (bind_inl _ _ _ _ _ Hmain). subst w1. cbn [fst snd heap out].
  by rewrite <- !app_assoc.
Qed.

(** X12. On available data the last table [run_strategy] prints, the
    "Sample of Trades", always begins with the first bar of the series:
    its position is NaN, which the filter [positions != 0] lets through,
    although no BUY or SELL line is ever printed for that bar. *)
Theorem X12_sample_of_trades_lists_the_first_bar
    (w : world) (df : DataFrame) (close : list float64)
    (d : date) (idx : list date) :
  yf_download main_py.TICKER main_py.START_DATE main_py.END_DATE = Returns df →
  wf_frame df →
  columns df !! "Close" = Some close →
  index df = d :: idx →
  ∃ (w' : world) (table : DataFrame),
    main_py.run_strategy yf_download w = (inr tt, w')
    ∧ last (out w') = Some (Print (Table table))
    ∧ index table !! 0%nat = Some d
    ∧ columns table !! "positions" ≫= (.!! 0%nat) = Some NaN
    ∧ row_prints d NaN (default NaN (close !! 0%nat)) = [].
Proof.
  intros Hr Hwf Hc Hi.
  assert (empty df = false) as He.
  { unfold empty. rewrite Hi.
    destruct (decide (columns df = ∅)) as [E|E].
    - by rewrite E in Hc.
    - by rewrite !bool_decide_eq_false_2. }
  pose proof (rolling_mean_good_window close main_py.SHORT_WINDOW
                ltac:(done)) as Hs.
  pose proof (rolling_mean_good_window close main_py.LONG_WINDOW
                ltac:(done)) as Hl.
  pose proof (run_strategy_run yf_download w df close _ _
                Hr He Hwf Hc Hs Hl) as Hrun.
  cbv zeta in Hrun. rewrite Hrun. clear Hrun.
  pose proof (Hwf _ _ Hc) as Lc. simpl in Lc. rewrite Hi in Lc.
  set (short := _ <$> seq 0 (length close)) in *.
  set (long := (λ i, calc_mean 1 (window_state close
                                    (Z.to_nat main_py.LONG_WINDOW) i))
                 <$> seq 0 (length close)) in *.
  assert (length (signal_column short long) = S (length idx)) as Lsig.
  { rewrite signal_column_length;
      rewrite (rolling_mean_length _ _ _ _ Hs);
      [done | by rewrite (rolling_mean_length _ _ _ _ Hl)]. }
  destruct (signal_column short long) as [|x c] eqn:Esig; [done|].
  eexists _, _. split; [done|]. cbn [out].
  split.
  { rewrite !app_assoc, last_app_cons. reflexivity. }
  rewrite Hi. simpl. rewrite !lookup_fmap. simpl.
  rewrite lookup_insert_eq, Esig. done.
Qed.

End RunStrategyEdges.

Lemma X11_witness :
  let provider (ticker start end_ : string) :=
    Returns (Frame [1; 2] {[ "Open" := [f0; f1] ]}) in
  ∃ data : loc,
    heap (World ∅ []) !! data = None
    ∧ main_py.run_strategy provider (World ∅ [])
      = (inl (KeyError "Close"),
         World (<[data := Frame [1; 2] {[ "Open" := [f0; f1] ]}]>
                  (heap (World ∅ [])))
           (out (World ∅ [])
            ++ [Print (Fetching main_py.TICKER main_py.START_DATE
                         main_py.END_DATE);
                YfDownload main_py.TICKER main_py.START_DATE main_py.END_DATE;
                Print Fetched;
                Print (Calculating main_py.SHORT_WINDOW
                         main_py.LONG_WINDOW)])).
Proof.
  intros provider.
  apply (X11_run_strategy_raises_without_close provider (World ∅ [])
           (Frame [1; 2] {[ "Open" := [f0; f1] ]})); reflexivity.
Defined.

Lemma X12_witness :
  ∃ (w' : world) (table : DataFrame),
    main_py.run_strategy example_provider (World ∅ []) = (inr tt, w')
    ∧ last (out w') = Some (Print (Table table))
    ∧ index table !! 0%nat = Some 1
    ∧ columns table !! "positions" ≫= (.!! 0%nat) = Some NaN
    ∧ row_prints 1 NaN (default NaN ((Fin <$> example_close) !! 0%nat)) = [].
Proof.
  apply (X12_sample_of_trades_lists_the_first_bar example_provider
           (World ∅ []) example_prices (Fin <$> example_close) 1
           [2; 3; 4; 5; 6; 7; 8; 9; 10]);
    [reflexivity | | reflexivity | reflexivity].
  apply (bool_decide_unpack _). vm_compute. exact I.
Defined.

(** ** [generate_signals] and [execute_trades] on any input *)

(** X13. Called on a frame that has [Close] but no moving averages yet,
    [generate_signals] raises [KeyError] for "SMA_Short". The input frame
    is untouched; the half-built signals frame, holding only [price], is
    left behind at a new address. *)
Theorem X13_generate_signals_needs_the_averages
    (w : world) (data : loc) (df : DataFrame) (close : list float64) :
  heap w !! data = Some df →
  columns df !! "Close" = Some close →
  columns df !! "SMA_Short" = None →
  ∃ (signals : loc) (h' : gmap loc DataFrame),
    app_py.generate_signals data w
    = (inl (KeyError "SMA_Short"), World h' (out w))
    ∧ main_py.generate_signals data w
      = (inl (KeyError "SMA_Short"), World h' (out w ++ [Print Generating]))
    ∧ heap w !! signals = None
    ∧ h' = <[signals := assign "price" close (Frame (index df) ∅)]> (heap w)
    ∧ h' !! data = Some df.
Proof.
  intros Hd Hc Hs.
  pose proof (fresh_ne_live w data df Hd) as Hne.
  assert (∀ o, build_signals data (World (heap w) o)
               = (inl (KeyError "SMA_Short"),
                  World (<[fresh (dom (heap w)) :=
                             assign "price" close (Frame (index df) ∅)]>
                           (heap w)) o)) as Hrun.
  { intros o. unfold build_signals. run_load.
    rewrite (bind_inr _ _ _ _ _ (alloc_run _ _)). cbn [heap out].
    run_getcol. run_setcol. rewrite insert_insert_eq.
    match goal with
    | |- (getcol _ _ ≫= _) ?w1 = _ =>
        assert (heap w1 !! data = Some df) as Hd1 by heap_lookup
    end.
    by rewrite (bind_inl _ _ _ _ _
                  (getcol_missing data "SMA_Short" df _ Hd1 Hs)). }
  eexists _, _. split.
  { unfold app_py.generate_signals. destruct w as [h o]. apply Hrun. }
  split.
  { unfold main_py.generate_signals, print. run_emit.
    by rewrite (bind_inl _ _ _ _ _ (Hrun _)). }
  split; [apply fresh_not_live|]. split; [done|].
  by rewrite lookup_insert_ne.
Qed.

Lemma X13_witness :
  ∃ (signals : loc) (h' : gmap loc DataFrame),
    app_py.generate_signals 1%positive example_fetched
    = (inl (KeyError "SMA_Short"), World h' (out example_fetched))
    ∧ main_py.generate_signals 1%positive example_fetched
      = (inl (KeyError "SMA_Short"),
         World h' (out example_fetched ++ [Print Generating]))
    ∧ heap example_fetched !! signals = None
    ∧ h' = <[signals := assign "price" (Fin <$> example_close)
                          (Frame (index example_prices) ∅)]>
             (heap example_fetched)
    ∧ h' !! 1%positive = Some example_prices.
Proof.
  apply (X13_generate_signals_needs_the_averages example_fetched 1%positive
           example_prices (Fin <$> example_close)); reflexivity.
Defined.

(** X14. The frame [generate_signals] returns has exactly the five
    columns [price], [SMA_Short], [SMA_Long], [signal] and [positions]:
    [Close] appears only under the name [price], and no other column of
    the input (volume, open, ...) is carried over. *)
Theorem X14_signals_frame_has_five_columns
    (w : world) (data : loc) (df : DataFrame)
    (close sma_short sma_long : list float64) :
  heap w !! data = Some df →
  columns df !! "Close" = Some close →
  columns df !! "SMA_Short" = Some sma_short →
  columns df !! "SMA_Long" = Some sma_long →
  ∃ (signals : loc) (sdf : DataFrame),
    generates data w signals sdf
    ∧ ∀ k : string,
        is_Some (columns sdf !! k)
        ↔ k ∈ ["price"; "SMA_Short"; "SMA_Long"; "signal"; "positions"].
Proof.
  intros Hd Hc Hs Hl. eexists _, _.
  split; [by eapply generate_signals_run|].
  intros k. unfold signals_frame, assign. simpl.
  rewrite !lookup_insert, lookup_empty, !elem_of_cons, elem_of_nil.
  repeat case_decide; split; intros Hk;
    try (by eexists); try (by destruct Hk); try tauto.
  all: intuition congruence.
Qed.

Lemma X14_witness :
  ∃ (signals : loc) (sdf : DataFrame),
    generates 1%positive
      (World {[ 1%positive := example_indicated ]} [Print Fetched])
      signals sdf
    ∧ ∀ k : string,
        is_Some (columns sdf !! k)
        ↔ k ∈ ["price"; "SMA_Short"; "SMA_Long"; "signal"; "positions"].
Proof.
  apply (X14_signals_frame_has_five_columns
           (World {[ 1%positive := example_indicated ]} [Print Fetched])
           1%positive example_indicated (Fin <$> example_close)
           example_short example_long); reflexivity.
Defined.

Lemma trade_body_frame (r : date * gmap string float64) (w : world) :
  heap (trade_body r w).2 = heap w
  ∧ ∃ evs : list event, out (trade_body r w).2 = out w ++ evs.
Proof.
  destruct r as [d row].
  unfold trade_body, row_get, print, emit, mbind, M_bind, bind, mret, M_ret,
    ret, raise.
  destruct (row !! "positions") as [p|]; simpl.
  2: { split; [done|]. exists []. by rewrite app_nil_r. }
  destruct (feq p f1); [|destruct (feq p fm1)];
    destruct (row !! "price"); simpl; split; try done;
    (by eexists) || (exists []; by rewrite app_nil_r).
Qed.

Lemma for_each_frame {A} (body : A → M unit) (l : list A) (w : world) :
  (∀ x w0, heap (body x w0).2 = heap w0
           ∧ ∃ evs, out (body x w0).2 = out w0 ++ evs) →
  heap (for_each l body w).2 = heap w
  ∧ ∃ evs : list event, out (for_each l body w).2 = out w ++ evs.
Proof.
  intros Hbody. revert w. induction l as [|x l IH]; intros w.
  { split; [done|]. exists []. by rewrite app_nil_r. }
  cbn [for_each]. unfold mbind, M_bind, bind.
  destruct (Hbody x w) as [Hh [evs Ho]].
  destruct (body x w) as [[e|[]] w1]; simpl in *.
  - split; [done|]. by exists evs.
  - destruct (IH w1) as [Hh1 [evs1 Ho1]]. split; [congruence|].
    exists (evs ++ evs1). by rewrite Ho1, Ho, app_assoc.
Qed.

(** X15. [execute_trades] only reports: whatever frame or reference it
    is given, and whether it ends normally or with an exception, it
    leaves every object of the store as it was, and it only adds lines to
    the trace, the first of them its opening banner. *)
Theorem X15_execute_trades_leaves_the_store_alone (signals : loc) (w : world) :
  heap (main_py.execute_trades signals w).2 = heap w
  ∧ ∃ evs : list event,
      out (main_py.execute_trades signals w).2
      = out w ++ Print Executing :: evs.
Proof.
  rewrite execute_trades_unfold. unfold print. run_emit.
  set (w0 := World (heap w) (out w ++ [Print Executing])).
  destruct (heap w !! signals) as [df|] eqn:Hs.
  2: { assert (load signals w0
               = (inl (OtherError "dangling reference"), w0)) as Hl
         by (unfold load; simpl; by rewrite Hs).
       rewrite (bind_inl _ _ _ _ _ Hl). split; [done|]. by exists []. }
  rewrite (bind_inr _ _ _ _ _ (load_run signals df w0 Hs)).
  destruct (for_each_frame trade_body (iterrows df) w0 trade_body_frame)
    as [Hh [evs Ho]].
  unfold mbind, M_bind, bind.
  destruct (for_each (iterrows df) trade_body w0) as [[e|[]] w1];
    simpl in *.
  - split; [done|]. exists evs. by rewrite Ho, <- app_assoc.
  - split; [done|]. exists (evs ++ [Print Complete]).
    by rewrite Ho, <- !app_assoc.
Qed.

(** X16. [generate_signals] never writes to an object that was live
    before the call: whatever the input frame holds or lacks, and
    whether the call ends normally or with an exception, every address
    other than the one new address keeps its content. [app.py]'s
    version adds nothing to the trace. *)
Theorem X16_generate_signals_touches_no_live_object (data : loc) (w : world) :
  heap w !! fresh (dom (heap w)) = None
  ∧ out (app_py.generate_signals data w).2 = out w
  ∧ heap (main_py.generate_signals data w).2
    = heap (app_py.generate_signals data w).2
  ∧ ∀ l : loc, l ≠ fresh (dom (heap w)) →
      heap (app_py.generate_signals data w).2 !! l = heap w !! l.
Proof.
  split; [apply fresh_not_live|].
  assert (∀ o, out (build_signals data (World (heap w) o)).2 = o
               ∧ ∃ h', heap (build_signals data (World (heap w) o)).2 = h'
                       ∧ (∀ o', heap (build_signals data
                                        (World (heap w) o')).2 = h')
                       ∧ ∀ l, l ≠ fresh (dom (heap w)) →
                           h' !! l = heap w !! l) as Hb.
  { intros o.
    unfold build_signals, getcol, setcol, load, alloc, mbind, M_bind, bind,
      mret, M_ret, ret, raise. cbn [heap out].
    repeat (case_match; cbn [heap out fst snd] in *; simplify_eq);
      (split; [done|]); eexists; (split; [done|]); (split; [done|]);
      intros ? ?%not_eq_sym; cbn [heap out fst snd];
      by rewrite ?lookup_insert_ne. }
  unfold app_py.generate_signals, main_py.generate_signals, print.
  destruct w as [h o]. cbn [heap out] in *.
  destruct (Hb o) as [Ho (h' & Hh & Hall & Hl)].
  split; [done|]. split; [|by rewrite Hh].
  rewrite Hh. run_emit. cbn [heap out].
  specialize (Hall (o ++ [Print Generating])).
  unfold mbind, M_bind, bind.
  by destruct (build_signals data (World h (o ++ [Print Generating])))
    as [[e|s] w1].
Qed.

(** ** The script of [app.py] when data is available *)

Lemma markers_are_log_rows (sdf : DataFrame) (positions price : list float64) :
  length positions = length (index sdf) →
  length price = length (index sdf) →
  let log := app_py.trade_log sdf positions price in
  let buy := (λ p, feq p f1) <$> positions in
  let sell := (λ p, feq p fm1) <$> positions in
  zip_with (λ d p, Print (BuyAt d p))
    (select buy (index sdf)) (select buy price)
  = List.filter is_buy (log_prints log)
  ∧ zip_with (λ d p, Print (SellAt d p))
      (select sell (index sdf)) (select sell price)
    = List.filter is_sell (log_prints log).
Proof.
  destruct sdf as [idx cols]. unfold app_py.trade_log, log_prints. simpl.
  revert positions price.
  induction idx as [|d idx IH]; intros [|p ps] [|pr prs] Lp Lpr;
    simplify_eq/=; [done|].
  destruct (IH ps prs ltac:(done) ltac:(done)) as [IHb IHs].
  destruct (feq p f1) eqn:E1; simpl.
  { assert (feq p fm1 = false) as E2
      by (apply feq_fin in E1 as ->; by vm_compute).
    rewrite E1, E2. simpl. by rewrite IHb, IHs. }
  rewrite orb_false_r. destruct (feq p fm1) eqn:E2; simpl.
  { rewrite E1. simpl. by rewrite IHb, IHs. }
  done.
Qed.

Section Script.
Variable yf_download : string → string → string → download_result.

Lemma script_run (ticker start_date end_date : string)
    (short_window long_window : Z) (w : world) (df : DataFrame)
    (close short long : list float64) :
  short_window < long_window →
  yf_download ticker start_date end_date = Returns df →
  empty df = false →
  columns df !! "Close" = Some close →
  rolling_mean close short_window 1 = inr short →
  rolling_mean close long_window 1 = inr long →
  let data := fresh (dom (heap w)) in
  let h1 := <[data := with_moving_averages df short long]> (heap w) in
  let sdf := signals_frame (index df) close short long in
  let positions := diff (signal_column short long) in
  let buy := (λ p, feq p f1) <$> positions in
  let sell := (λ p, feq p fm1) <$> positions in
  app_py.script yf_download ticker start_date end_date
    short_window long_window w
  = (inr tt,
     World (<[fresh (dom h1) := sdf]> h1)
       (out w
        ++ [YfDownload ticker start_date end_date;
            StSubheader (Some ticker);
            StPlotlyChart
              [MkScatter (index df) close ClosePrice;
               MkScatter (index df) short (SMA short_window);
               MkScatter (index df) long (SMA long_window);
               MkScatter (select buy (index df)) (select buy close) BuySignal;
               MkScatter (select sell (index df)) (select sell close)
                 SellSignal];
            StSubheader None;
            StDataframe (app_py.trade_log sdf positions close)])).
Proof.
  intros Hw Hr He Hc Hs Hl data h1 sdf positions buy sell.
  unfold app_py.script.
  destruct (Z.leb_spec long_window short_window); [lia|].
  rewrite (bind_inr _ _ _ _ _ (app_fetch_data_available _ _ _ _ _ _ Hr He)).
  fold data. set (w1 := World _ _).
  assert (heap w1 !! data = Some df) as Hd1 by apply lookup_insert_eq.
  assert (app_py.add_moving_averages data short_window long_window w1
          = (inr data, World h1 (out w1))) as Hadd.
  { unfold app_py.add_moving_averages.
    rewrite (bind_inr _ _ _ _ _
               (assign_moving_averages_run w1 data df close short long _ _
                  Hd1 Hc Hs Hl)).
    subst w1 h1. cbn [heap out]. by rewrite insert_insert_eq. }
  rewrite (bind_inr _ _ _ _ _ Hadd).
  set (w2 := World h1 _).
  assert (heap w2 !! data = Some (with_moving_averages df short long)) as Hd2
    by apply lookup_insert_eq.
  destruct (generate_signals_run w2 data _ close short long Hd2)
    as (_ & Hgen & _); [heap_lookup..|].
  rewrite (bind_inr _ _ _ _ _ Hgen). cbn [heap index out].
  fold sdf. set (signals := fresh (dom h1)).
  assert (signals ≠ data) as Hne.
  { subst signals h1. apply fresh_after_insert. }
  run_emit. cbn [heap out]. run_load. run_getcol. run_load.
  do 5 run_getcol. run_emit. run_emit. do 2 run_getcol.
  rewrite emit_run. subst w2 w1 signals sdf positions buy sell.
  cbn [heap out index]. by rewrite <- !app_assoc.
Qed.

(** X17. With [short_window < long_window] and [short_window] at least
    1, on a non-empty, well-formed frame with a [Close] column the script
    of [app.py] ends normally and shows, in this order, the header, one
    chart and the trade log. The chart plots the close and the two
    averages against the dates, with a buy marker at exactly the rows
    that are BUY in the trade log and a sell marker at exactly its SELL
    rows. *)
Theorem X17_script_charts_what_the_trade_log_lists
    (ticker start_date end_date : string) (short_window long_window : Z)
    (w : world) (df : DataFrame) (close : list float64) :
  1 ≤ short_window → short_window < long_window →
  yf_download ticker start_date end_date = Returns df →
  empty df = false →
  wf_frame df →
  columns df !! "Close" = Some close →
  ∃ (h' : gmap loc DataFrame) (sdf : DataFrame)
    (sma_short sma_long : list float64) (buys sells : Scatter) (log : TradeLog),
    signal_rows (index df) (Some close) short_window long_window = inr sdf
    ∧ columns sdf !! "SMA_Short" = Some sma_short
    ∧ columns sdf !! "SMA_Long" = Some sma_long
    ∧ app_py.script yf_download ticker start_date end_date
        short_window long_window w
      = (inr tt,
         World h'
           (out w
            ++ [YfDownload ticker start_date end_date;
                StSubheader (Some ticker);
                StPlotlyChart
                  [MkScatter (index df) close ClosePrice;
                   MkScatter (index df) sma_short (SMA short_window);
                   MkScatter (index df) sma_long (SMA long_window);
                   buys; sells];
                StSubheader None;
                StDataframe log]))
    ∧ sc_name buys = BuySignal ∧ sc_name sells = SellSignal
    ∧ zip_with (λ d p, Print (BuyAt d p)) (sc_x buys) (sc_y buys)
      = List.filter is_buy (log_prints log)
    ∧ zip_with (λ d p, Print (SellAt d p)) (sc_x sells) (sc_y sells)
      = List.filter is_sell (log_prints log).
Proof.
  intros H1 Hw Hr He Hwf Hc.
  pose proof (rolling_mean_good_window close short_window H1) as Hs.
  pose proof (rolling_mean_good_window close long_window ltac:(lia)) as Hl.
  pose proof (script_run ticker start_date end_date short_window long_window
                w df close _ _ Hw Hr He Hc Hs Hl) as Hrun.
  cbv zeta in Hrun.
  eexists _, _, _, _, _, _, _. split.
  { unfold signal_rows. by rewrite Hs, Hl. }
  split; [apply signals_frame_sma_short|].
  split; [apply signals_frame_sma_long|].
  split; [exact Hrun|]. split; [done|]. split; [done|].
  cbn [sc_x sc_y].
  pose proof (Hwf _ _ Hc) as Lc. simpl in Lc.
  apply (markers_are_log_rows (signals_frame (index df) close _ _)); [|done].
  rewrite diff_length, signal_column_length;
    by rewrite !length_fmap, length_seq.
Qed.

End Script.

Lemma X17_witness :
  ∃ (h' : gmap loc DataFrame) (sdf : DataFrame)
    (sma_short sma_long : list float64) (buys sells : Scatter) (log : TradeLog),
    signal_rows (index example_prices) (Some (Fin <$> example_close)) 2 4
    = inr sdf
    ∧ columns sdf !! "SMA_Short" = Some sma_short
    ∧ columns sdf !! "SMA_Long" = Some sma_long
    ∧ app_py.script example_provider "AAPL" "2022-01-01" "2023-01-01" 2 4
        (World ∅ [])
      = (inr tt,
         World h'
           (out (World ∅ [])
            ++ [YfDownload "AAPL" "2022-01-01" "2023-01-01";
                StSubheader (Some "AAPL");
                StPlotlyChart
                  [MkScatter (index example_prices) (Fin <$> example_close)
                     ClosePrice;
                   MkScatter (index example_prices) sma_short (SMA 2);
                   MkScatter (index example_prices) sma_long (SMA 4);
                   buys; sells];
                StSubheader None;
                StDataframe log]))
    ∧ sc_name buys = BuySignal ∧ sc_name sells = SellSignal
    ∧ zip_with (λ d p, Print (BuyAt d p)) (sc_x buys) (sc_y buys)
      = List.filter is_buy (log_prints log)
    ∧ zip_with (λ d p, Print (SellAt d p)) (sc_x sells) (sc_y sells)
      = List.filter is_sell (log_prints log).
Proof.
  apply (X17_script_charts_what_the_trade_log_lists example_provider
           "AAPL" "2022-01-01" "2023-01-01" 2 4 (World ∅ [])
           example_prices (Fin <$> example_close));
    [lia | lia | reflexivity | reflexivity | | reflexivity].
  apply (bool_decide_unpack _). vm_compute. exact I.
Defined.

(** ** More edges of the trade loop *)

(** X18. [execute_trades] given a frame that has rows but no [positions]
    column (the price frame instead of the signal rows, say) prints its
    opening banner and then raises [KeyError] for "positions" on the
    first row: no trade line and no closing banner are printed. *)
Theorem X18_execute_trades_needs_positions
    (w : world) (signals : loc) (df : DataFrame) (d : date) (idx : list date) :
  heap w !! signals = Some df →
  index df = d :: idx →
  columns df !! "positions" = None →
  main_py.execute_trades signals w
  = (inl (KeyError "positions"),
     World (heap w) (out w ++ [Print Executing])).
Proof.
  intros Hs Hi Hp. rewrite execute_trades_unfold. unfold print. run_emit.
  rewrite (bind_inr _ _ _ _ _
             (load_run signals df (World (heap w) _) Hs)).
  unfold iterrows. rewrite Hi. cbn [imap for_each].
  unfold mbind at 1 2, M_bind, bind, trade_body at 1.
  unfold mbind at 1, M_bind, bind, row_get at 1.
  unfold row_at. by rewrite lookup_omap, Hp.
Qed.

Lemma X18_witness :
  main_py.execute_trades 1%positive example_fetched
  = (inl (KeyError "positions"),
     World (heap example_fetched) (out example_fetched ++ [Print Executing])).
Proof.
  apply (X18_execute_trades_needs_positions example_fetched 1%positive
           example_prices 1 [2; 3; 4; 5; 6; 7; 8; 9; 10]); reflexivity.
Defined.





